(** * MCP tool adapter ([src/tools.ts]): result conversion, invocation, catalog loading

    A shallow embedding of [_embeddedResourceToArtifact],
    [_convertCallToolResult], [_callTool] and [loadMcpTools], followed by the
    properties the specification states about them.

    Conventions.
    - An optional JavaScript string property is an [option string]; [None] is
      [undefined].  Truthiness follows the language: the empty string is falsy.
    - Asynchronous code is a computation over a [World] that records every
      request sent to the MCP client and every record handed to the debug
      logger.  A computation finishes with a value ([inr]) or with a thrown
      value ([inl]); the world survives a throw.
    - The MCP client, [JSON.stringify] and [JSONSchemaToZod.convert] are
      external collaborators and are parameters of the development. *)

From Stdlib Require Import String Ascii List Bool Arith Lia DecimalString.
Import ListNotations.
Local Open Scope string_scope.
Local Open Scope list_scope.

Set Implicit Arguments.

(* ===================================================================== *)
(** ** JavaScript values the code inspects *)
(* ===================================================================== *)

Module Js.

(** [!!s] for a string-or-undefined property. *)
Definition truthy (s : option string) : bool :=
  match s with
  | Some (String _ _) => true
  | Some EmptyString => false
  | None => false
  end.

(** [!!b] for a boolean-or-undefined property. *)
Definition truthy_bool (b : option bool) : bool :=
  match b with
  | Some true => true
  | _ => false
  end.

(** [a || d] on a string-or-undefined left operand. *)
Definition or_else (a : option string) (d : string) : string :=
  match a with
  | Some (String c s) => String c s
  | _ => d
  end.

(** [a ?? d]; also [a || d] when [a] is an array or [undefined]. *)
Definition nullish {A : Type} (a : option A) (d : A) : A :=
  match a with
  | Some x => x
  | None => d
  end.

(** The string an element contributes to [Array.prototype.join]:
    [undefined] becomes the empty string. *)
Definition join_item (x : option string) : string :=
  match x with
  | Some s => s
  | None => ""
  end.

(** [xs.join(sep)]. *)
Fixpoint join (sep : string) (xs : list (option string)) : string :=
  match xs with
  | [] => ""
  | [x] => join_item x
  | x :: rest => join_item x ++ sep ++ join sep rest
  end.

(** Decimal rendering of an array length inside a template literal. *)
Definition of_nat (n : nat) : string :=
  NilEmpty.string_of_uint (Nat.to_uint n).

(** The line feed, ["\n"]. *)
Definition LF : string := String (ascii_of_nat 10) EmptyString.

(** The double quote. *)
Definition QUOTE : string := String (ascii_of_nat 34) EmptyString.

End Js.

(** Values that may sit in the [content] property of a call result. *)
Inductive NonArray : Type :=
| JsUndefined
| JsNull
| JsBoolean (b : bool)
| JsNumber (n : nat)
| JsString (s : string)
| JsObject.

(** [typeof v] for a value that is not an array. *)
Definition typeof (v : NonArray) : string :=
  match v with
  | JsUndefined => "undefined"
  | JsNull => "object"
  | JsBoolean _ => "boolean"
  | JsNumber _ => "number"
  | JsString _ => "string"
  | JsObject => "object"
  end.

(** Anything a [throw] can carry.  [ToolException] is the class declared in
    the source (its [name] is always ["ToolException"]); [Foreign d] is any
    other thrown value, [d] being what [String(error)] yields for it. *)
Inductive Thrown : Type :=
| ToolException (message : string)
| Foreign (description : string).

(** [error instanceof ToolException]. *)
Definition instanceof_ToolException (error : Thrown) : bool :=
  match error with
  | ToolException _ => true
  | Foreign _ => false
  end.

(** [error.name] for an instance of the class; a foreign value's own name is
    not fixed by this code and is left to its description. *)
Definition error_name (error : Thrown) : option string :=
  match error with
  | ToolException _ => Some "ToolException"
  | Foreign _ => None
  end.

(** [String(error)]: [Error.prototype.toString] gives [name + ": " + message],
    or the name alone when the message is empty. *)
Definition String_of (error : Thrown) : string :=
  match error with
  | ToolException EmptyString => "ToolException"
  | ToolException m => "ToolException: " ++ m
  | Foreign d => d
  end.

(* ===================================================================== *)
(** ** Protocol data *)
(* ===================================================================== *)

(** One part of a [ReadResourceResult], also the nested [resource] of an
    embedded resource. *)
Record ResourceContents : Type := mkResourceContents {
  rc_uri : string;
  rc_mimeType : option string;
  rc_text : option string;
  rc_blob : option string
}.

(** A block of kind ["resource"].  The three optional properties are the ones
    the resolver tests on the block itself; [resource] is the nested record
    whose [uri] is sent to the server. *)
Record EmbeddedResource : Type := mkEmbeddedResource {
  uri : option string;
  blob : option string;
  text : option string;
  resource : ResourceContents
}.

(** The kinds the converter knows. *)
Definition declared_kind (k : string) : bool :=
  (k =? "text") || (k =? "image") || (k =? "resource").

(** A content block.  The first three constructors are the union
    [CallToolResultContent] of the source.  [UndeclaredContent] is a block a
    server may still send whose [type] is none of the three; it carries the
    evidence of that, so that [type_of] is the block's real discriminator. *)
Inductive ContentBlock : Type :=
| TextContent (text : string)
| ImageContent (data mimeType : string)
| ResourceBlock (r : EmbeddedResource)
| UndeclaredContent (type : string) (text : option string)
                    (undeclared : declared_kind type = false).

(** [content.type]. *)
Definition type_of (content : ContentBlock) : string :=
  match content with
  | TextContent _ => "text"
  | ImageContent _ _ => "image"
  | ResourceBlock _ => "resource"
  | UndeclaredContent k _ _ => k
  end.

(** [content.text]. *)
Definition text_of (content : ContentBlock) : option string :=
  match content with
  | TextContent t => Some t
  | ImageContent _ _ => None
  | ResourceBlock r => text r
  | UndeclaredContent _ t _ => t
  end.

(** The [content] property: an array of blocks, or something else. *)
Inductive Content : Type :=
| ContentArray (blocks : list ContentBlock)
| ContentOther (v : NonArray).

Record CallToolResult : Type := mkCallToolResult {
  content : Content;
  isError : option bool
}.

(** What [client.callTool] resolves to. *)
Inductive RawResult : Type :=
| ResultUndefined
| ResultNull
| ResultObject (r : CallToolResult).

Record ReadResourceResult : Type := mkReadResourceResult {
  contents : list ResourceContents
}.

(** Fragments of the primary content. *)
Inductive MessageContentComplex : Type :=
| MessageContentText (text : string)
| MessageContentImageUrl (url : string).

(** The [type] property of a fragment. *)
Definition fragment_type (f : MessageContentComplex) : string :=
  match f with
  | MessageContentText _ => "text"
  | MessageContentImageUrl _ => "image_url"
  end.

(** [MessageContent]: a bare string or a fragment sequence. *)
Inductive MessageContent : Type :=
| ContentString (s : string)
| ContentFragments (fragments : list MessageContentComplex).

(* ===================================================================== *)
(** ** The world: client requests and debug records *)
(* ===================================================================== *)

(** A record handed to the [debug] logger: the format string and the extra
    argument, when one is passed. *)
Inductive DebugRecord : Type :=
| Debug (message : string)
| DebugWith (message : string) (error : Thrown).

Section Adapter.

(** Call arguments ([Record<string, unknown>]) and [JSON.stringify] on
    them, which throws on values it cannot serialise. *)
Variable Args : Type.
Variable JSON_stringify : Args -> Thrown + string.

(** Declared and converted schemas, and [JSONSchemaToZod.convert]. *)
Variable JSONSchema : Type.
Variable ZodSchema : Type.
Variable JSONSchemaToZod_convert : JSONSchema -> Thrown + ZodSchema.

(** The literal [{ type: "object", properties: {} }]. *)
Variable emptyObjectSchema : JSONSchema.

(** A request sent to the MCP client. *)
Inductive ClientRequest : Type :=
| ListTools
| CallTool (name : string) (arguments : Args)
| ReadResource (uri : string).

Record World : Type := mkWorld {
  requests : list ClientRequest;
  debugLog : list DebugRecord
}.

(** A tool as the server advertises it. *)
Record MCPTool : Type := mkMCPTool {
  name : option string;
  description : option string;
  inputSchema : option JSONSchema
}.

Record ListToolsResult : Type := mkListToolsResult {
  tools : option (list MCPTool)
}.

(** The MCP client.  Each method answers a request given the requests the
    client has received before it, so a server with memory is covered. *)
Record Client : Type := mkClient {
  listTools : list ClientRequest -> Thrown + ListToolsResult;
  callTool : list ClientRequest -> string -> Args -> Thrown + RawResult;
  readResource : list ClientRequest -> string -> Thrown + ReadResourceResult
}.

(** *** Computations *)

Definition M (A : Type) : Type := World -> (Thrown + A) * World.

Definition ret {A : Type} (a : A) : M A := fun w => (inr a, w).

Definition throw {A : Type} (e : Thrown) : M A := fun w => (inl e, w).

Definition bind {A B : Type} (m : M A) (k : A -> M B) : M B :=
  fun w =>
    match m w with
    | (inr a, w') => k a w'
    | (inl e, w') => (inl e, w')
    end.

(** [try { m } catch (error) { h error }]. *)
Definition try_catch {A : Type} (m : M A) (h : Thrown -> M A) : M A :=
  fun w =>
    match m w with
    | (inr a, w') => (inr a, w')
    | (inl e, w') => h e w'
    end.

(** A synchronous expression that may throw. *)
Definition lift {A : Type} (r : Thrown + A) : M A := fun w => (r, w).

(** [getDebugLog()(message)] and [getDebugLog()(message, error)]. *)
Definition debug (d : DebugRecord) : M unit :=
  fun w => (inr tt, mkWorld (requests w) (debugLog w ++ [d])).

(** Sending a request: it is recorded, and the client answers from what it
    had received before. *)
Definition send {A : Type} (q : ClientRequest)
           (answer : list ClientRequest -> Thrown + A) : M A :=
  fun w => (answer (requests w), mkWorld (requests w ++ [q]) (debugLog w)).

(** [Promise.all(ps)]: every computation of [ps] has been started, in order,
    by the time the joint promise is awaited; the result is the list of
    their values, or a rejection when one of them rejected.  The language
    reports the rejection that happens first in time; time is not part of
    this world, and the earliest in list order is reported here.  Nothing
    below depends on which rejection it is. *)
Fixpoint Promise_all {A : Type} (ps : list (M A)) : M (list A) :=
  fun w =>
    match ps with
    | [] => (inr [], w)
    | p :: rest =>
        let (r, w1) := p w in
        let (rs, w2) := Promise_all rest w1 in
        (match r, rs with
         | inl e, _ => inl e
         | inr _, inl e => inl e
         | inr a, inr l => inr (a :: l)
         end, w2)
    end.

(** [xs.map(f)] for a callback that may throw: the first throw aborts. *)
Fixpoint map_throwing {A B : Type} (f : A -> Thrown + B) (xs : list A)
  : Thrown + list B :=
  match xs with
  | [] => inr []
  | x :: rest =>
      match f x with
      | inl e => inl e
      | inr b =>
          match map_throwing f rest with
          | inl e => inl e
          | inr bs => inr (b :: bs)
          end
      end
  end.

Notation "x <- m ;; k" := (bind m (fun x => k))
  (at level 61, m at next level, right associativity).
Notation "m ;;; k" := (bind m (fun _ => k))
  (at level 61, right associativity).

(** *** [_embeddedResourceToArtifact] *)

(** The object literal [{ type: "resource", resource: { ...content } }]. *)
Definition rewrap (c : ResourceContents) : EmbeddedResource :=
  mkEmbeddedResource None None None
    (mkResourceContents (rc_uri c) (rc_mimeType c) (rc_text c) (rc_blob c)).

Definition _embeddedResourceToArtifact
           (resource0 : EmbeddedResource) (client : Client)
  : M (list EmbeddedResource) :=
  if negb (Js.truthy (blob resource0)) && negb (Js.truthy (text resource0))
     && Js.truthy (uri resource0)
  then
    response <- send (ReadResource (rc_uri (resource resource0)))
                     (fun h => readResource client h
                                 (rc_uri (resource resource0))) ;;
    ret (map rewrap (contents response))
  else ret [resource0].

(** *** [_convertCallToolResult] *)

Definition msg_undefined (serverName toolName : string) : string :=
  "MCP tool '" ++ toolName ++ "' on server '" ++ serverName
  ++ "' returned an invalid result - tool call response was undefined".

Definition msg_not_array (serverName toolName : string) (v : NonArray)
  : string :=
  "MCP tool '" ++ toolName ++ "' on server '" ++ serverName
  ++ "' returned an invalid result - expected an array of content, but was "
  ++ typeof v.

Definition msg_isError (serverName toolName : string)
           (blocks : list ContentBlock) : string :=
  "MCP tool '" ++ toolName ++ "' on server '" ++ serverName
  ++ "' returned an error: " ++ Js.join Js.LF (map text_of blocks).

Definition msg_unexpected_kind (serverName toolName : string)
           (content : ContentBlock) : string :=
  "MCP tool '" ++ toolName ++ "' on server '" ++ serverName
  ++ "' returned an invalid result - expected a text or image content, but was "
  ++ type_of content.

(** The callback of the first [filter]. *)
Definition is_text_or_image (content : ContentBlock) : bool :=
  (type_of content =? "text") || (type_of content =? "image").

(** The callback of the second [filter]. *)
Definition is_resource (content : ContentBlock) : bool :=
  type_of content =? "resource".

(** The [switch] inside the first [map]. *)
Definition classify (serverName toolName : string) (content : ContentBlock)
  : Thrown + MessageContentComplex :=
  match content with
  | TextContent t => inr (MessageContentText t)
  | ImageContent d m =>
      inr (MessageContentImageUrl ("data:" ++ m ++ ";base64," ++ d))
  | _ => inl (ToolException (msg_unexpected_kind serverName toolName content))
  end.

(** The local [mcpTextAndImageContent]. *)
Definition mcpTextAndImageContent (serverName toolName : string)
           (blocks : list ContentBlock)
  : Thrown + list MessageContentComplex :=
  map_throwing (classify serverName toolName)
               (filter is_text_or_image blocks).

(** The blocks kept by the second [filter], cast to [EmbeddedResource].  A
    block of type ["resource"] is a [ResourceBlock], so the inner default is
    never taken. *)
Fixpoint resource_blocks (blocks : list ContentBlock)
  : list EmbeddedResource :=
  match blocks with
  | [] => []
  | b :: rest =>
      if is_resource b
      then match b with
           | ResourceBlock r => r :: resource_blocks rest
           | _ => resource_blocks rest
           end
      else resource_blocks rest
  end.

(** The local [artifacts]. *)
Definition artifacts_of (blocks : list ContentBlock) (client : Client)
  : M (list EmbeddedResource) :=
  parts <- Promise_all
             (map (fun r => _embeddedResourceToArtifact r client)
                  (resource_blocks blocks)) ;;
  ret (concat parts).

Definition _convertCallToolResult (serverName toolName : string)
           (result : RawResult) (client : Client)
  : M (MessageContent * list EmbeddedResource) :=
  match result with
  | ResultUndefined | ResultNull =>
      throw (ToolException (msg_undefined serverName toolName))
  | ResultObject r =>
      match content r with
      | ContentOther v =>
          throw (ToolException (msg_not_array serverName toolName v))
      | ContentArray blocks =>
          if Js.truthy_bool (isError r)
          then throw (ToolException (msg_isError serverName toolName blocks))
          else
            fragments <- lift (mcpTextAndImageContent serverName toolName
                                                      blocks) ;;
            artifacts <- artifacts_of blocks client ;;
            match (length fragments =? 1)%nat, fragments with
            | true, MessageContentText t :: _ =>
                ret (ContentString t, artifacts)
            | _, _ => ret (ContentFragments fragments, artifacts)
            end
      end
  end.

(** *** [_callTool] *)

Definition _callTool (serverName toolName : string) (client : Client)
           (args : Args)
  : M (MessageContent * list EmbeddedResource) :=
  result <-
    try_catch
      (json <- lift (JSON_stringify args) ;;
       debug (Debug ("INFO: Calling tool " ++ toolName ++ "(" ++ json ++ ")")) ;;;
       send (CallTool toolName args)
            (fun h => callTool client h toolName args))
      (fun error =>
         debug (Debug ("Error calling tool " ++ toolName ++ ": "
                       ++ String_of error)) ;;;
         if instanceof_ToolException error
         then throw error
         else throw (ToolException ("Error calling tool " ++ toolName ++ ": "
                                    ++ String_of error))) ;;
  _convertCallToolResult serverName toolName result client.

(** *** [loadMcpTools] *)

Record DynamicStructuredTool : Type := mkDynamicStructuredTool {
  dst_name : string;
  dst_description : string;
  dst_schema : ZodSchema;
  dst_responseFormat : string;
  dst_func : Args -> M (MessageContent * list EmbeddedResource)
}.

(** The body of the [try] block, for a tool that passed the name filter:
    the schema is converted, which may throw, and the tool object is built
    from the five properties, which does not. *)
Definition construct (serverName : string) (client : Client)
           (tool_name : string) (tool : MCPTool)
  : Thrown + DynamicStructuredTool :=
  match JSONSchemaToZod_convert
          (Js.nullish (inputSchema tool) emptyObjectSchema) with
  | inl e => inl e
  | inr schema =>
      inr (mkDynamicStructuredTool
             tool_name
             (Js.or_else (description tool) "")
             schema
             "content_and_artifact"
             (_callTool serverName tool_name client))
  end.

(** The callback of [map]: [Some dst], or [None] for the [null] of the
    lenient branch. *)
Definition load_one (serverName : string) (client : Client)
           (throwOnLoadError : bool) (tool : MCPTool)
  : M (option DynamicStructuredTool) :=
  (* [tool.name]: a non-empty string, since the name filter ran before. *)
  let tool_name := Js.join_item (name tool) in
  try_catch
    (dst <- lift (construct serverName client tool_name tool) ;;
     debug (Debug ("INFO: Successfully loaded tool: " ++ dst_name dst)) ;;;
     ret (Some dst))
    (fun error =>
       debug (DebugWith ("ERROR: Failed to load tool " ++ Js.QUOTE
                         ++ tool_name ++ Js.QUOTE ++ ":") error) ;;;
       if throwOnLoadError then throw error else ret None).

(** [xs.map(f)] for a callback with effects that may throw. *)
Fixpoint mapM {A B : Type} (f : A -> M B) (xs : list A) : M (list B) :=
  match xs with
  | [] => ret []
  | x :: rest =>
      b <- f x ;;
      bs <- mapM f rest ;;
      ret (b :: bs)
  end.

(** [.filter(Boolean)] on the mapped array. *)
Fixpoint filter_Boolean {A : Type} (xs : list (option A)) : list A :=
  match xs with
  | [] => []
  | Some a :: rest => a :: filter_Boolean rest
  | None :: rest => filter_Boolean rest
  end.

Definition loadMcpTools (serverName : string) (client : Client)
           (throwOnLoadError : bool)
  : M (list DynamicStructuredTool) :=
  toolsResponse <- send ListTools (listTools client) ;;
  debug (Debug ("INFO: Found "
                ++ Js.of_nat (match tools toolsResponse with
                              | Some ts => length ts
                              | None => 0
                              end)
                ++ " MCP tools")) ;;;
  loaded <- mapM (load_one serverName client throwOnLoadError)
                 (filter (fun tool => Js.truthy (name tool))
                         (Js.nullish (tools toolsResponse) [])) ;;
  ret (filter_Boolean loaded).

End Adapter.

Arguments ListTools {Args}.
Arguments ReadResource {Args} uri.
Arguments M Args A : clear implicits.

(* ===================================================================== *)
(** ** The specification's vocabulary *)
(* ===================================================================== *)

Module Spec.

(** A property the block "carries": it is present, whatever its value. *)
Definition carries (p : option string) : bool :=
  match p with
  | Some _ => true
  | None => false
  end.

(** "Already carries blob or text, or carries no uri". *)
Definition resolved_or_unresolvable (r : EmbeddedResource) : bool :=
  carries (blob r) || carries (text r) || negb (carries (uri r)).

(** The texts of the blocks that have one, blocks without text skipped. *)
Fixpoint texts (blocks : list ContentBlock) : list string :=
  match blocks with
  | [] => []
  | b :: rest =>
      match text_of b with
      | Some t => t :: texts rest
      | None => texts rest
      end
  end.

(** "The newline-joined text of the content blocks". *)
Definition joined_text (blocks : list ContentBlock) : string :=
  String.concat Js.LF (texts blocks).

(** The normalization rule: a lone text fragment is unwrapped, every other
    sequence is returned as it is. *)
Inductive normalized
  : list MessageContentComplex -> MessageContent -> Prop :=
| normalized_lone_text (t : string) :
    normalized [MessageContentText t] (ContentString t)
| normalized_empty :
    normalized [] (ContentFragments [])
| normalized_lone_image (u : string) :
    normalized [MessageContentImageUrl u]
               (ContentFragments [MessageContentImageUrl u])
| normalized_several (f g : MessageContentComplex)
                     (rest : list MessageContentComplex) :
    normalized (f :: g :: rest) (ContentFragments (f :: g :: rest)).

(** An observer of thrown values that does not look into the message of a
    [ToolException]: all it can use is the class and the name. *)
Definition message_blind (f : Thrown -> bool) : Prop :=
  forall m m' : string, f (ToolException m) = f (ToolException m').

End Spec.

(** Failures that come from the client's reads. *)
Section Reads.

Context {Args JSONSchema : Type}.
Implicit Types (client : Client Args JSONSchema).

(** A thrown value that some resource read of the client answers with. *)
Definition read_failure client (e : Thrown) : Prop :=
  exists (h : list (ClientRequest Args)) (u : string),
    readResource client h u = inl e.

(** A client none of whose reads fails. *)
Definition reads_succeed client : Prop :=
  forall (h : list (ClientRequest Args)) (u : string),
    exists r, readResource client h u = inr r.

End Reads.

(** What a load over the named descriptors [ts] amounts to: the tools that
    construct, in order, and the first construction failure when there is
    one. *)
Section LoadOutcome.

Context {Args JSONSchema ZodSchema : Type}.
Variable JSON_stringify : Args -> Thrown + string.
Variable JSONSchemaToZod_convert : JSONSchema -> Thrown + ZodSchema.
Variable emptyObjectSchema : JSONSchema.
Variable serverName : string.
Variable client : Client Args JSONSchema.

Definition construct_tool (tool : MCPTool JSONSchema)
  : Thrown + DynamicStructuredTool Args ZodSchema :=
  construct JSON_stringify JSONSchemaToZod_convert emptyObjectSchema
            serverName client (Js.join_item (name tool)) tool.

Fixpoint constructed (ts : list (MCPTool JSONSchema))
  : list (DynamicStructuredTool Args ZodSchema) :=
  match ts with
  | [] => []
  | tool :: rest =>
      match construct_tool tool with
      | inr dst => dst :: constructed rest
      | inl _ => constructed rest
      end
  end.

Fixpoint first_failure (ts : list (MCPTool JSONSchema)) : option Thrown :=
  match ts with
  | [] => None
  | tool :: rest =>
      match construct_tool tool with
      | inr _ => first_failure rest
      | inl e => Some e
      end
  end.

Definition load_outcome (throwOnLoadError : bool)
           (ts : list (MCPTool JSONSchema))
  : Thrown + list (DynamicStructuredTool Args ZodSchema) :=
  match throwOnLoadError, first_failure ts with
  | true, Some e => inl e
  | _, _ => inr (constructed ts)
  end.

(** The descriptors that pass the name filter. *)
Definition named (ts : list (MCPTool JSONSchema))
  : list (MCPTool JSONSchema) :=
  filter (fun tool => Js.truthy (name tool)) ts.

End LoadOutcome.

(* ===================================================================== *)
(** ** A concrete server, for running the code *)
(* ===================================================================== *)

Module Demo.

(** Arguments are kept as their JSON text; schemas as their source text. *)
Definition Args : Type := string.
Definition JSONSchema : Type := string.
Definition ZodSchema : Type := string.

Definition stringify (a : Args) : Thrown + string := inr a.

Definition convert (s : JSONSchema) : Thrown + ZodSchema :=
  if s =? "{type:42}"
  then inl (Foreign "Error: Unsupported schema type")
  else inr s.

Definition emptyObject : JSONSchema := "{type:object,properties:{}}".

Definition part1 : ResourceContents :=
  mkResourceContents "file:///notes.txt" (Some "text/plain")
                     (Some "first") None.

Definition part2 : ResourceContents :=
  mkResourceContents "file:///notes.txt#2" (Some "text/plain")
                     (Some "second") None.

Definition add : MCPTool JSONSchema :=
  mkMCPTool (Some "add") (Some "Add two numbers") (Some "{type:object}").

Definition broken : MCPTool JSONSchema :=
  mkMCPTool (Some "broken") None (Some "{type:42}").

Definition echo : MCPTool JSONSchema :=
  mkMCPTool (Some "echo") (Some "Echo the input") None.

Definition anonymous : MCPTool JSONSchema :=
  mkMCPTool (Some "") (Some "No name") (Some "{type:42}").

Definition five : RawResult :=
  ResultObject (mkCallToolResult (ContentArray [TextContent "5"])
                                 (Some false)).

(** A server that advertises [catalog], answers every call with [answer]
    and every read with the two parts above. *)
Definition server (catalog : list (MCPTool JSONSchema))
           (answer : Thrown + RawResult) : Client Args JSONSchema :=
  mkClient
    (fun _ => inr (mkListToolsResult (Some catalog)))
    (fun _ _ _ => answer)
    (fun _ _ => inr (mkReadResourceResult [part1; part2])).

Definition client : Client Args JSONSchema :=
  server [add; broken; echo] (inr five).

(** A server whose reads fail. *)
Definition offline : Client Args JSONSchema :=
  mkClient
    (fun _ => inl (Foreign "Error: Connection closed"))
    (fun _ _ _ => inl (Foreign "Error: Connection closed"))
    (fun _ _ => inl (Foreign "Error: Connection closed")).

Definition start : World Args := mkWorld [] [].

(** An inline resource whose text is the empty string, as for an empty
    file. *)
Definition empty_file : EmbeddedResource :=
  mkEmbeddedResource (Some "file:///empty.txt") None (Some "")
    (mkResourceContents "file:///empty.txt" (Some "text/plain")
                        (Some "") None).

(** A reference: a uri and no payload. *)
Definition reference : EmbeddedResource :=
  mkEmbeddedResource (Some "file:///notes.txt") None None
    (mkResourceContents "file:///notes.txt" None None None).

(** An inline resource with a payload. *)
Definition inline : EmbeddedResource :=
  mkEmbeddedResource (Some "file:///a.txt") None (Some "payload")
    (mkResourceContents "file:///a.txt" None (Some "payload") None).

(** A block of a kind outside the declared union. *)
Definition audio : ContentBlock :=
  UndeclaredContent "audio" None eq_refl.

Definition failed (blocks : list ContentBlock) : RawResult :=
  ResultObject (mkCallToolResult (ContentArray blocks) (Some true)).

Definition succeeded (blocks : list ContentBlock) : RawResult :=
  ResultObject (mkCallToolResult (ContentArray blocks) (Some false)).

End Demo.

(* ===================================================================== *)
(** ** Further vocabulary: reads, artifacts, loaded tools, the logger *)
(* ===================================================================== *)

(** An upstream-tool error: what the converter throws for a result whose
    [isError] is true, for some server, tool and blocks. *)
Definition upstream_tool_error (e : Thrown) : Prop :=
  exists (serverName toolName : string) (blocks : list ContentBlock),
    e = ToolException (msg_isError serverName toolName blocks).

(** The invocation error the invoker builds around a thrown value. *)
Definition invocation_error (toolName : string) (error : Thrown) : Thrown :=
  ToolException ("Error calling tool " ++ toolName ++ ": " ++ String_of error).

(** The guard of the resolver: [!resource.blob && !resource.text &&
    resource.uri]. *)
Definition needs_read (r : EmbeddedResource) : bool :=
  negb (Js.truthy (blob r)) && negb (Js.truthy (text r)) && Js.truthy (uri r).

Section Traffic.

Context {Args JSONSchema ZodSchema : Type}.

(** The reads a conversion of [blocks] sends: one for each resource block
    the guard lets through, for the uri of its nested resource, in block
    order. *)
Definition reads_of (blocks : list ContentBlock) : list (ClientRequest Args) :=
  map (fun r => ReadResource (rc_uri (resource r)))
      (filter needs_read (resource_blocks blocks)).

Definition is_read (q : ClientRequest Args) : bool :=
  match q with
  | ReadResource _ => true
  | _ => false
  end.

(** What one resource block becomes when the server answers the read of
    [u] with [answer u]. *)
Definition resolved_with (answer : string -> ReadResourceResult)
           (r : EmbeddedResource) : list EmbeddedResource :=
  if needs_read r
  then map (mkEmbeddedResource None None None)
           (contents (answer (rc_uri (resource r))))
  else [r].

(** The record written for a tool that was loaded. *)
Definition loaded_record (dst : DynamicStructuredTool Args ZodSchema)
  : DebugRecord :=
  Debug ("INFO: Successfully loaded tool: " ++ dst_name dst).

(** The record written for a tool whose construction threw. *)
Definition failed_to_load_record (tool : MCPTool JSONSchema) (e : Thrown)
  : DebugRecord :=
  DebugWith ("ERROR: Failed to load tool " ++ Js.QUOTE
             ++ Js.join_item (name tool) ++ Js.QUOTE ++ ":") e.

(** The record written after the tools were listed. *)
Definition found_record (n : nat) : DebugRecord :=
  Debug ("INFO: Found " ++ Js.of_nat n ++ " MCP tools").

End Traffic.

(** The lazily created logger: [let debugLog] and [getDebugLog].  The state
    holds the module variable and the namespaces the [debug] factory has been
    called with.  A [Debugger] is a function object, hence truthy, so
    [!debugLog] holds exactly while the variable is still [undefined]. *)
Module Logger.

Section Lazy.

Variable Debugger : Type.
Variable debug : string -> Debugger.

Record State : Type := mkState {
  debugLog : option Debugger;
  created : list string
}.

Definition initial : State := mkState None [].

Definition namespace : string := "@langchain/mcp-adapters:tools".

Definition getDebugLog (s : State) : Debugger * State :=
  match debugLog s with
  | Some d => (d, s)
  | None =>
      let d := debug namespace in
      (d, mkState (Some d) (created s ++ [namespace]))
  end.

(** [n] successive calls of [getDebugLog], with what each returned. *)
Fixpoint calls (n : nat) (s : State) : list Debugger * State :=
  match n with
  | O => ([], s)
  | S k =>
      let (d, s1) := getDebugLog s in
      let (ds, s2) := calls k s1 in
      (d :: ds, s2)
  end.

End Lazy.

End Logger.

(** More cases for the concrete server. *)
Module Cases.

(** A server that answers each read with one part carrying the uri asked
    for. *)
Definition mirror (u : string) : ReadResourceResult :=
  mkReadResourceResult [mkResourceContents u None (Some "body") None].

Definition mirror_server : Client Demo.Args Demo.JSONSchema :=
  mkClient
    (fun _ => inr (mkListToolsResult (Some [Demo.add; Demo.echo])))
    (fun _ _ _ => inr (Demo.succeeded [TextContent "done";
                                       ResourceBlock Demo.inline]))
    (fun _ u => inr (mirror u)).

(** A server whose list response has no [tools] property. *)
Definition bare_server : Client Demo.Args Demo.JSONSchema :=
  mkClient
    (fun _ => inr (mkListToolsResult None))
    (fun _ _ _ => inr Demo.five)
    (fun _ u => inr (mirror u)).

(** Arguments that cannot be serialised. *)
Definition circular (a : Demo.Args) : Thrown + string :=
  inl (Foreign "TypeError: Converting circular structure to JSON").

(** The invocation error of a nested invoker whose own transport was down:
    a [ToolException], but not one a tool reported through [isError]. *)
Definition nested_failure : Thrown :=
  ToolException "Error calling tool inner: Error: Connection closed".

(** A transport that relays to a nested invoker and raises what it threw. *)
Definition relay : Client Demo.Args Demo.JSONSchema :=
  Demo.server [] (inl nested_failure).

Definition other_reference : EmbeddedResource :=
  mkEmbeddedResource (Some "file:///b.txt") (Some "") None
    (mkResourceContents "file:///b.txt" None None None).

End Cases.

(* ===================================================================== *)
(** ** Properties of the resolver and the converter *)
(* ===================================================================== *)

Unset Implicit Arguments.

Section ConverterProperties.

Context {Args JSONSchema : Type}.
Implicit Types (client : Client Args JSONSchema) (w : World Args).
Implicit Types (serverName toolName : string).
Implicit Types (blocks : list ContentBlock) (b : ContentBlock).

Lemma undeclared_not_text (k : string) :
  declared_kind k = false ->
  (k =? "text") = false /\ (k =? "image") = false
  /\ (k =? "resource") = false.
Proof.
  unfold declared_kind. intros H.
  apply orb_false_iff in H as [H Hr].
  apply orb_false_iff in H as [Ht Hi].
  auto.
Qed.

Lemma undeclared_filtered_out b :
  declared_kind (type_of b) = false ->
  is_text_or_image b = false /\ is_resource b = false.
Proof.
  intros H. apply undeclared_not_text in H as (Ht & Hi & Hr).
  unfold is_text_or_image, is_resource. rewrite Ht, Hi, Hr. auto.
Qed.

Lemma kept_is_classified serverName toolName b :
  is_text_or_image b = true ->
  exists f, classify serverName toolName b = inr f.
Proof.
  destruct b as [t | d m | r | k t U]; simpl; intros H.
  - eauto.
  - eauto.
  - discriminate H.
  - destruct (undeclared_filtered_out (UndeclaredContent k t U) U) as [Hf _].
    rewrite Hf in H. discriminate H.
Qed.

Lemma fragments_total serverName toolName blocks :
  exists fragments,
    mcpTextAndImageContent serverName toolName blocks = inr fragments.
Proof.
  unfold mcpTextAndImageContent.
  induction blocks as [| b rest [fs IH]]; simpl.
  - eauto.
  - destruct (is_text_or_image b) eqn:Hb.
    + destruct (kept_is_classified serverName toolName b Hb) as [f Hf].
      simpl. rewrite Hf, IH. eauto.
    + eauto.
Qed.

Lemma resource_blocks_app blocks blocks' :
  resource_blocks (blocks ++ blocks')
  = resource_blocks blocks ++ resource_blocks blocks'.
Proof.
  induction blocks as [| b rest IH]; simpl; [reflexivity |].
  destruct (is_resource b); [destruct b |]; simpl; rewrite ?IH; reflexivity.
Qed.

Lemma rewrap_keeps_part (c : ResourceContents) :
  rewrap c = mkEmbeddedResource None None None c.
Proof. destruct c; reflexivity. Qed.

(** The resolver leaves the debug log alone, and fails only when the read
    it issued failed. *)
Lemma resolver_failure (r : EmbeddedResource) client w e :
  fst (_embeddedResourceToArtifact r client w) = inl e ->
  read_failure client e.
Proof.
  unfold _embeddedResourceToArtifact, bind, send, ret.
  destruct (negb (Js.truthy (blob r)) && negb (Js.truthy (text r))
            && Js.truthy (uri r)); simpl.
  - destruct (readResource client (requests w) (rc_uri (resource r)))
      as [e' | resp] eqn:R; simpl; intros H; [| discriminate].
    injection H as <-. exists (requests w), (rc_uri (resource r)). exact R.
  - discriminate.
Qed.

Lemma resolver_returns (r : EmbeddedResource) client w :
  reads_succeed client ->
  exists parts, fst (_embeddedResourceToArtifact r client w) = inr parts.
Proof.
  intros OK.
  unfold _embeddedResourceToArtifact, bind, send, ret.
  destruct (negb (Js.truthy (blob r)) && negb (Js.truthy (text r))
            && Js.truthy (uri r)); simpl; [| eauto].
  destruct (OK (requests w) (rc_uri (resource r))) as [resp R].
  rewrite R. simpl. eauto.
Qed.

Lemma Promise_all_failure (rs : list EmbeddedResource) client w e :
  fst (Promise_all (map (fun r => _embeddedResourceToArtifact r client) rs) w)
  = inl e ->
  read_failure client e.
Proof.
  revert w. induction rs as [| r rest IH]; simpl; intros w H.
  - discriminate.
  - destruct (_embeddedResourceToArtifact r client w) as [o w1] eqn:E1.
    specialize (IH w1).
    destruct (Promise_all
                (map (fun r0 => _embeddedResourceToArtifact r0 client) rest)
                w1) as [os w2].
    simpl in *.
    destruct o as [e1 | a].
    + injection H as <-.
      apply (resolver_failure r client w). rewrite E1. reflexivity.
    + destruct os as [e2 | l]; [| discriminate].
      injection H as <-. apply IH. reflexivity.
Qed.

Lemma Promise_all_returns (rs : list EmbeddedResource) client w :
  reads_succeed client ->
  exists parts,
    fst (Promise_all
           (map (fun r => _embeddedResourceToArtifact r client) rs) w)
    = inr parts.
Proof.
  intros OK. revert w. induction rs as [| r rest IH]; simpl; intros w.
  - eauto.
  - destruct (resolver_returns r client w OK) as [a Ha].
    destruct (_embeddedResourceToArtifact r client w) as [o w1].
    simpl in Ha. subst o.
    destruct (IH w1) as [l Hl].
    destruct (Promise_all
                (map (fun r0 => _embeddedResourceToArtifact r0 client) rest)
                w1) as [os w2].
    simpl in *. subst os. eauto.
Qed.

Lemma artifacts_failure blocks client w e :
  fst (artifacts_of blocks client w) = inl e -> read_failure client e.
Proof.
  unfold artifacts_of, bind, ret. intros H.
  apply (Promise_all_failure (resource_blocks blocks) client w).
  destruct (Promise_all _ w) as [[e' | parts] w']; simpl in *;
    [congruence | discriminate].
Qed.

Lemma artifacts_returns blocks client w :
  reads_succeed client ->
  exists artifacts, fst (artifacts_of blocks client w) = inr artifacts.
Proof.
  intros OK. unfold artifacts_of, bind, ret.
  destruct (Promise_all_returns (resource_blocks blocks) client w OK)
    as [parts H].
  destruct (Promise_all _ w) as [[e' | parts'] w']; simpl in *;
    [discriminate | eauto].
Qed.

(** The converter past its three guards, in terms of the two locals. *)
Lemma convert_unfold serverName toolName blocks (e : option bool) client w
      fragments :
  Js.truthy_bool e = false ->
  mcpTextAndImageContent serverName toolName blocks = inr fragments ->
  _convertCallToolResult serverName toolName
    (ResultObject (mkCallToolResult (ContentArray blocks) e)) client w
  = match artifacts_of blocks client w with
    | (inl err, w') => (inl err, w')
    | (inr artifacts, w') =>
        (inr (match fragments with
              | [MessageContentText t] => ContentString t
              | _ => ContentFragments fragments
              end, artifacts), w')
    end.
Proof.
  intros He Hf. unfold _convertCallToolResult. simpl.
  rewrite He. unfold bind at 1. unfold lift. rewrite Hf.
  unfold bind. destruct (artifacts_of blocks client w) as [[err | a] w'];
    [reflexivity |].
  destruct fragments as [| [t | u] [| g rest]]; reflexivity.
Qed.

(** Closes a goal [fst (throw (ToolException _) _) = inl err -> _ \/ _] on
    its left, for a guard of the converter that throws by itself. *)
Ltac own_exception :=
  let H := fresh "H" in
  intros H; injection H as <-; left; eexists; reflexivity.

(** Whatever the result, a failing conversion throws a [ToolException] of
    its own or passes on the failure of a read. *)
Lemma convert_failure serverName toolName (result : RawResult) client w err :
  fst (_convertCallToolResult serverName toolName result client w) = inl err ->
  (exists m, err = ToolException m) \/ read_failure client err.
Proof.
  destruct result as [| | [[blocks | v] e]].
  - own_exception.
  - own_exception.
  - destruct (Js.truthy_bool e) eqn:He.
    + unfold _convertCallToolResult. cbn [content isError].
      rewrite He. own_exception.
    + destruct (fragments_total serverName toolName blocks) as [fs Hfs].
      rewrite (convert_unfold serverName toolName blocks e client w fs He Hfs).
      destruct (artifacts_of blocks client w) as [[err' | a] w'] eqn:A; simpl;
        intros H; [| discriminate].
      injection H as <-. right.
      apply (artifacts_failure blocks client w). rewrite A. reflexivity.
  - own_exception.
Qed.

Lemma join_with_every_text blocks :
  (forall b, In b blocks -> text_of b <> None) ->
  Js.join Js.LF (map text_of blocks) = Spec.joined_text blocks.
Proof.
  unfold Spec.joined_text.
  induction blocks as [| b rest IH]; intros All; [reflexivity |].
  assert (Hb : text_of b <> None) by (apply All; left; reflexivity).
  assert (Hrest : forall b', In b' rest -> text_of b' <> None)
    by (intros b' I; apply All; right; exact I).
  specialize (IH Hrest).
  simpl. destruct (text_of b) as [t |] eqn:Tb; [| contradiction].
  destruct rest as [| b2 rest2]; [reflexivity |].
  change (map text_of (b2 :: rest2)) with (text_of b2 :: map text_of rest2)
    in *.
  simpl Js.join_item. rewrite IH. simpl Spec.texts.
  assert (H2 : text_of b2 <> None) by (apply Hrest; left; reflexivity).
  destruct (text_of b2) as [t2 |]; [reflexivity | contradiction].
Qed.

(** C1.  Normalization by the Result Converter.  For a result whose
    [content] is an array and whose [isError] is falsy, classification of
    the text and image blocks always yields a fragment sequence; whenever
    the conversion returns, its primary content is the bare string of the
    fragment when that sequence is one text fragment, and the whole
    sequence, never a string, in every other case (none, several, or one
    image fragment).  The only way not to return is a failing resource read,
    so with a client whose reads succeed the conversion does return. *)
Theorem convert_normalization
        serverName toolName blocks (e : option bool) client w :
  Js.truthy_bool e = false ->
  exists fragments,
    mcpTextAndImageContent serverName toolName blocks = inr fragments
    /\ match fst (_convertCallToolResult serverName toolName
                    (ResultObject (mkCallToolResult (ContentArray blocks) e))
                    client w) with
       | inr (primary, _) =>
           Spec.normalized fragments primary
           /\ (forall t, fragments = [MessageContentText t] ->
                         primary = ContentString t)
           /\ ((forall t, fragments <> [MessageContentText t]) ->
               primary = ContentFragments fragments)
       | inl err => read_failure client err
       end
    /\ (reads_succeed client ->
        exists out,
          fst (_convertCallToolResult serverName toolName
                 (ResultObject (mkCallToolResult (ContentArray blocks) e))
                 client w) = inr out).
Proof.
  intros He.
  destruct (fragments_total serverName toolName blocks) as [fs Hfs].
  exists fs. split; [exact Hfs |].
  rewrite (convert_unfold serverName toolName blocks e client w fs He Hfs).
  split.
  - destruct (artifacts_of blocks client w) as [[err | a] w'] eqn:A; simpl.
    + apply (artifacts_failure blocks client w). rewrite A. reflexivity.
    + destruct fs as [| [t | u] [| g rest]];
        (split; [constructor |]); split;
        try (intros t0 E; congruence);
        try (intros N; reflexivity).
      intros N. exfalso. apply (N t). reflexivity.
  - intros OK.
    destruct (artifacts_returns blocks client w OK) as [a Ha].
    destruct (artifacts_of blocks client w) as [[err | a'] w']; simpl in *;
      [discriminate | eauto].
Qed.

(** C2, as the code has it.  A result with [isError = true] and an array
    for [content] makes the conversion throw a [ToolException] whose
    message is the fixed lead-in naming tool and server followed by the
    newline-joined texts of the blocks, one entry per block: a block without
    text contributes an empty entry.  This holds whatever the blocks are,
    nothing is classified and no request is sent; with no block the message
    is the bare lead-in; when every block has a text the joined part is the
    newline-joined text of the blocks. *)
Theorem isError_message serverName toolName blocks client w :
  _convertCallToolResult serverName toolName
    (ResultObject (mkCallToolResult (ContentArray blocks) (Some true)))
    client w
  = (inl (ToolException
            ("MCP tool '" ++ toolName ++ "' on server '" ++ serverName
             ++ "' returned an error: "
             ++ Js.join Js.LF (map text_of blocks))), w)
  /\ Js.join Js.LF (map text_of (@nil ContentBlock)) = ""
  /\ ((forall b, In b blocks -> text_of b <> None) ->
      Js.join Js.LF (map text_of blocks) = Spec.joined_text blocks).
Proof.
  split; [reflexivity |]. split; [reflexivity |].
  apply join_with_every_text.
Qed.

(** C3, as the code has it.  A resource block with a non-empty [blob] or a
    non-empty [text], or whose [uri] is absent or empty, is returned
    unchanged as a one-element sequence and nothing is sent.  A block with a
    non-empty [uri] and neither a non-empty [blob] nor a non-empty [text]
    sends exactly one read, for the uri of its nested resource; when the
    read succeeds the result is the response parts, each wrapped as a
    resource block, in response order, and when it fails the failure is
    the outcome. *)
Theorem resolver_behaviour (r : EmbeddedResource) client w :
  (Js.truthy (blob r) || Js.truthy (text r) || negb (Js.truthy (uri r))
   = true ->
   _embeddedResourceToArtifact r client w = (inr [r], w))
  /\ (Js.truthy (blob r) = false -> Js.truthy (text r) = false ->
      Js.truthy (uri r) = true ->
      snd (_embeddedResourceToArtifact r client w)
      = mkWorld (requests w ++ [ReadResource (rc_uri (resource r))])
                (debugLog w)
      /\ match readResource client (requests w) (rc_uri (resource r)) with
         | inr response =>
             fst (_embeddedResourceToArtifact r client w)
             = inr (map (mkEmbeddedResource None None None)
                        (contents response))
         | inl err =>
             fst (_embeddedResourceToArtifact r client w) = inl err
         end).
Proof.
  unfold _embeddedResourceToArtifact, bind, send, ret. split.
  - intros H.
    destruct (Js.truthy (blob r)), (Js.truthy (text r)),
      (Js.truthy (uri r)); simpl in *; try reflexivity; discriminate H.
  - intros Hb Ht Hu. rewrite Hb, Ht, Hu. simpl.
    destruct (readResource client (requests w) (rc_uri (resource r)))
      as [err | response]; simpl; split; try reflexivity.
    f_equal. apply map_ext. exact rewrap_keeps_part.
Qed.

(** C6.  Validation order of the Result Converter.  An undefined or null
    result throws the "tool call response was undefined" error before
    anything else is looked at; otherwise a [content] that is not an array
    throws the error naming [typeof content], whatever [isError] is; only
    with an array for [content] does [isError] decide, and a true [isError]
    then throws the error built from the blocks.  None of the three sends a
    request or writes a debug record. *)
Theorem validation_order serverName toolName client w :
  _convertCallToolResult serverName toolName ResultUndefined client w
  = (inl (ToolException
            ("MCP tool '" ++ toolName ++ "' on server '" ++ serverName
             ++ "' returned an invalid result - tool call response was undefined")),
     w)
  /\ _convertCallToolResult serverName toolName ResultNull client w
     = (inl (ToolException
               ("MCP tool '" ++ toolName ++ "' on server '" ++ serverName
                ++ "' returned an invalid result - tool call response was undefined")),
        w)
  /\ (forall (v : NonArray) (e : option bool),
        _convertCallToolResult serverName toolName
          (ResultObject (mkCallToolResult (ContentOther v) e)) client w
        = (inl (ToolException
                  ("MCP tool '" ++ toolName ++ "' on server '" ++ serverName
                   ++ "' returned an invalid result - expected an array of content, but was "
                   ++ typeof v)),
           w))
  /\ (forall blocks,
        _convertCallToolResult serverName toolName
          (ResultObject (mkCallToolResult (ContentArray blocks) (Some true)))
          client w
        = (inl (ToolException
                  ("MCP tool '" ++ toolName ++ "' on server '" ++ serverName
                   ++ "' returned an error: "
                   ++ Js.join Js.LF (map text_of blocks))), w)).
Proof.
  repeat split; try reflexivity.
Qed.

(** C8.  The Content Classifier.  A text block becomes the fragment of type
    ["text"] with the same text; an image block becomes the fragment of
    type ["image_url"] whose url is ["data:"], the mime type, [";base64,"]
    and the data, for any data string whatever; ["image/png"] with ["QQ=="]
    gives ["data:image/png;base64,QQ=="]. *)
Theorem classifier_fragments serverName toolName :
  (forall t : string,
      classify serverName toolName (TextContent t)
      = inr (MessageContentText t)
      /\ fragment_type (MessageContentText t) = "text")
  /\ (forall data mimeType : string,
        exists f,
          classify serverName toolName (ImageContent data mimeType) = inr f
          /\ fragment_type f = "image_url"
          /\ f = MessageContentImageUrl
                   ("data:" ++ mimeType ++ ";base64," ++ data))
  /\ classify serverName toolName (ImageContent "QQ==" "image/png")
     = inr (MessageContentImageUrl "data:image/png;base64,QQ==")
  /\ (forall (data mimeType : string) (e : option bool) client w,
        Js.truthy_bool e = false ->
        _convertCallToolResult serverName toolName
          (ResultObject
             (mkCallToolResult (ContentArray [ImageContent data mimeType]) e))
          client w
        = (inr (ContentFragments
                  [MessageContentImageUrl
                     ("data:" ++ mimeType ++ ";base64," ++ data)], []), w)).
Proof.
  split; [| split; [| split]].
  - intros t. split; reflexivity.
  - intros data mimeType. eexists. repeat split.
  - reflexivity.
  - intros data mimeType e client w He.
    rewrite (convert_unfold serverName toolName
               [ImageContent data mimeType] e client w
               [MessageContentImageUrl
                  ("data:" ++ mimeType ++ ";base64," ++ data)] He eq_refl).
    reflexivity.
Qed.

(** C10.  A block whose kind is none of ["text"], ["image"], ["resource"]
    is dropped without a trace from a result that is not an error: it adds
    no fragment and no artifact, and the whole conversion -- outcome, thrown
    value if any, requests sent -- is the one of the result without that
    block.  The classifier's branch for an unexpected kind cannot be
    reached, since every block the first filter keeps is classified. *)
Theorem undeclared_block_is_dropped
        serverName toolName (pre : list ContentBlock) b
        (post : list ContentBlock) (e : option bool) client w :
  declared_kind (type_of b) = false ->
  Js.truthy_bool e = false ->
  mcpTextAndImageContent serverName toolName (pre ++ b :: post)
  = mcpTextAndImageContent serverName toolName (pre ++ post)
  /\ resource_blocks (pre ++ b :: post) = resource_blocks (pre ++ post)
  /\ _convertCallToolResult serverName toolName
       (ResultObject (mkCallToolResult (ContentArray (pre ++ b :: post)) e))
       client w
     = _convertCallToolResult serverName toolName
         (ResultObject (mkCallToolResult (ContentArray (pre ++ post)) e))
         client w
  /\ (forall b', is_text_or_image b' = true ->
                 exists f, classify serverName toolName b' = inr f).
Proof.
  intros Hk He.
  destruct (undeclared_filtered_out b Hk) as [Hti Hres].
  assert (F : mcpTextAndImageContent serverName toolName (pre ++ b :: post)
              = mcpTextAndImageContent serverName toolName (pre ++ post)).
  { unfold mcpTextAndImageContent. rewrite !filter_app. simpl.
    rewrite Hti. reflexivity. }
  assert (R : resource_blocks (pre ++ b :: post)
              = resource_blocks (pre ++ post)).
  { rewrite !resource_blocks_app. simpl. rewrite Hres. reflexivity. }
  split; [exact F |]. split; [exact R |]. split.
  - destruct (fragments_total serverName toolName (pre ++ post))
      as [fs Hfs].
    rewrite (convert_unfold serverName toolName (pre ++ post) e client w fs
               He Hfs).
    rewrite <- F in Hfs.
    rewrite (convert_unfold serverName toolName (pre ++ b :: post) e client
               w fs He Hfs).
    unfold artifacts_of. rewrite R. reflexivity.
  - intros b'. apply kept_is_classified.
Qed.

End ConverterProperties.

(* ===================================================================== *)
(** ** Properties of the invoker and the loader *)
(* ===================================================================== *)

Section InvokerProperties.

Context {Args JSONSchema ZodSchema : Type}.
Variable JSON_stringify : Args -> Thrown + string.
Variable JSONSchemaToZod_convert : JSONSchema -> Thrown + ZodSchema.
Variable emptyObjectSchema : JSONSchema.
Implicit Types (client : Client Args JSONSchema) (w : World Args).
Implicit Types (serverName toolName : string).
Implicit Types (ts : list (MCPTool JSONSchema)) (tool : MCPTool JSONSchema).

Local Abbreviation call := (_callTool JSON_stringify).
Local Abbreviation load :=
  (loadMcpTools JSON_stringify JSONSchemaToZod_convert emptyObjectSchema).
Local Abbreviation load_tool :=
  (load_one JSON_stringify JSONSchemaToZod_convert emptyObjectSchema).
Local Abbreviation build :=
  (construct_tool JSON_stringify JSONSchemaToZod_convert emptyObjectSchema).
Local Abbreviation built :=
  (constructed JSON_stringify JSONSchemaToZod_convert emptyObjectSchema).
Local Abbreviation failure :=
  (first_failure JSON_stringify JSONSchemaToZod_convert emptyObjectSchema).
Local Abbreviation outcome :=
  (load_outcome JSON_stringify JSONSchemaToZod_convert emptyObjectSchema).

(** The record the lenient branch leaves for a tool that failed. *)
Local Abbreviation failed_record tool e :=
  (DebugWith ("ERROR: Failed to load tool " ++ Js.QUOTE
              ++ Js.join_item (name tool) ++ Js.QUOTE ++ ":") e).

(** One run of the [map] callback. *)
Lemma load_tool_run serverName client (strict : bool) tool w :
  load_tool serverName client strict tool w
  = match build serverName client tool with
    | inr dst =>
        (inr (Some dst),
         mkWorld (requests w)
                 (debugLog w
                  ++ [Debug ("INFO: Successfully loaded tool: "
                             ++ dst_name dst)]))
    | inl e =>
        (if strict then inl e else inr None,
         mkWorld (requests w) (debugLog w ++ [failed_record tool e]))
    end.
Proof.
  unfold load_one, construct_tool, try_catch, bind, lift, debug, ret, throw.
  destruct (construct _ _ _ _ _ _ tool) as [e | dst]; simpl.
  - destruct strict; reflexivity.
  - reflexivity.
Qed.

Lemma mapM_cons {A B : Type} (f : A -> M Args B) (x : A) (rest : list A) w :
  mapM f (x :: rest) w
  = match f x w with
    | (inl e, w1) => (inl e, w1)
    | (inr b, w1) =>
        match mapM f rest w1 with
        | (inl e, w2) => (inl e, w2)
        | (inr bs, w2) => (inr (b :: bs), w2)
        end
    end.
Proof.
  simpl. unfold bind, ret.
  destruct (f x w) as [[e | b] w1]; [reflexivity |].
  destruct (mapM f rest w1) as [[e | bs] w2]; reflexivity.
Qed.

Lemma load_all_outcome serverName client (strict : bool) ts w :
  match outcome serverName client strict ts with
  | inl e =>
      fst (mapM (load_tool serverName client strict) ts w) = inl e
  | inr dsts =>
      exists loaded,
        fst (mapM (load_tool serverName client strict) ts w) = inr loaded
        /\ filter_Boolean loaded = dsts
  end.
Proof.
  revert w. unfold load_outcome.
  induction ts as [| tool rest IH]; intros w.
  - destruct strict; simpl; exists []; split; reflexivity.
  - rewrite mapM_cons, load_tool_run. simpl first_failure. simpl constructed.
    destruct (build serverName client tool) as [e | dst] eqn:B.
    + destruct strict; [reflexivity |].
      match goal with
      | |- context [mapM _ rest ?w1] => specialize (IH w1)
      end.
      cbv iota in IH. destruct IH as (loaded & H & F).
      destruct (mapM _ rest _) as [[e' | l] w']; simpl in H;
        [discriminate |].
      injection H as ->. exists (None :: loaded). split; [reflexivity |].
      exact F.
    + match goal with
      | |- context [mapM _ rest ?w1] => specialize (IH w1)
      end.
      destruct (mapM _ rest _) as [[e2 | l] w'];
        destruct strict, (failure serverName client rest) as [e' |];
        simpl in IH |- *;
        try exact IH;
        try (destruct IH as (loaded & H & F); discriminate H);
        try discriminate IH;
        destruct IH as (loaded & H & F); injection H as ->;
        exists (Some dst :: loaded); (split; [reflexivity |]);
        simpl; rewrite F; reflexivity.
Qed.

(** The [map] sends nothing; under the lenient policy it leaves a record
    for every tool that failed. *)
Lemma load_all_world serverName client (strict : bool) ts w :
  requests (snd (mapM (load_tool serverName client strict) ts w)) = requests w
  /\ exists added,
      debugLog (snd (mapM (load_tool serverName client strict) ts w))
      = debugLog w ++ added
      /\ (strict = false ->
          forall tool e, In tool ts -> build serverName client tool = inl e ->
                         In (failed_record tool e) added).
Proof.
  revert w. induction ts as [| tool rest IH]; intros w.
  - simpl. split; [reflexivity |]. exists []. rewrite app_nil_r.
    split; [reflexivity |]. intros _ tool e [].
  - rewrite mapM_cons, load_tool_run.
    destruct (build serverName client tool) as [e | dst] eqn:B.
    + destruct strict.
      * cbn [fst snd requests debugLog]. split; [reflexivity |]. eexists. split; [reflexivity |].
        intros S. discriminate S.
      * match goal with
        | |- context [mapM _ rest ?w1] =>
            destruct (IH w1) as (R & added & L & I)
        end.
        destruct (mapM _ rest _) as [[e' | l] w'];
          cbn [fst snd requests debugLog] in *;
          (split; [exact R |]);
          exists (failed_record tool e :: added);
          (split; [rewrite L, <- app_assoc; reflexivity |]);
          intros _ tool' e2 [<- | In'] B';
          try (left; congruence); right; apply I; auto.
    + match goal with
      | |- context [mapM _ rest ?w1] =>
          destruct (IH w1) as (R & added & L & I)
      end.
      destruct (mapM _ rest _) as [[e' | l] w'];
          cbn [fst snd requests debugLog] in *;
        (split; [exact R |]);
        eexists;
        (split; [rewrite L, <- app_assoc; reflexivity |]);
        intros S tool' e2 [<- | In'] B'; try congruence;
        right; apply I; auto.
Qed.

Lemma load_run serverName client (strict : bool) w
      (response : ListToolsResult JSONSchema) :
  listTools client (requests w) = inr response ->
  fst (load serverName client strict w)
  = outcome serverName client strict (named (Js.nullish (tools response) [])).
Proof.
  intros L. unfold loadMcpTools, bind at 1, send. rewrite L.
  unfold bind at 1, debug. unfold bind, ret.
  match goal with
  | |- context [mapM ?f ?l ?w1] =>
      pose proof (load_all_outcome serverName client strict l w1) as O;
      destruct (mapM f l w1) as [[e | loaded] w']
  end.
  - unfold named in *.
    destruct (outcome serverName client strict _) as [e' | dsts];
      simpl in *; [congruence |].
    destruct O as (l & H & _). discriminate.
  - unfold named in *.
    destruct (outcome serverName client strict _) as [e' | dsts];
      simpl in *; [discriminate |].
    destruct O as (l & H & F). injection H as ->. rewrite F. reflexivity.
Qed.

Lemma load_requests serverName client (strict : bool) w :
  requests (snd (load serverName client strict w))
  = requests w ++ [ListTools].
Proof.
  unfold loadMcpTools, bind at 1, send.
  destruct (listTools client (requests w)) as [e | response]; [reflexivity |].
  unfold bind at 1, debug. unfold bind, ret.
  match goal with
  | |- context [mapM ?f ?l ?w1] =>
      pose proof (proj1 (load_all_world serverName client strict l w1)) as R;
      destruct (mapM f l w1) as [[e | loaded] w']
  end; simpl in *; exact R.
Qed.

Lemma first_failure_exists serverName client ts tool e :
  In tool ts -> build serverName client tool = inl e ->
  exists e', failure serverName client ts = Some e'.
Proof.
  induction ts as [| t rest IH]; [intros [] |].
  intros [<- | I] B; simpl.
  - rewrite B. eauto.
  - destruct (build serverName client t); eauto.
Qed.

Lemma built_members serverName client ts
      (dst : DynamicStructuredTool Args ZodSchema) :
  In dst (built serverName client ts)
  <-> exists tool, In tool ts /\ build serverName client tool = inr dst.
Proof.
  induction ts as [| t rest IH]; simpl.
  - split; [intros [] | intros (tool & [] & _)].
  - destruct (build serverName client t) as [e | d] eqn:B; simpl.
    + rewrite IH. split.
      * intros (tool & I & H). exists tool. auto.
      * intros (tool & [<- | I] & H); [congruence | exists tool; auto].
    + rewrite IH. split.
      * intros [<- | (tool & I & H)]; [exists t; auto | exists tool; auto].
      * intros (tool & [<- | I] & H); [left; congruence |].
        right. exists tool. auto.
Qed.

Lemma built_length serverName client ts :
  length (built serverName client ts) <= length ts.
Proof.
  induction ts as [| t rest IH]; simpl; [lia |].
  destruct (build serverName client t); simpl; lia.
Qed.

Lemma built_shorter serverName client ts tool e :
  In tool ts -> build serverName client tool = inl e ->
  length (built serverName client ts) < length ts.
Proof.
  induction ts as [| t rest IH]; [intros [] |].
  intros [<- | I] B; simpl.
  - rewrite B. pose proof (built_length serverName client rest). lia.
  - specialize (IH I B).
    destruct (build serverName client t); simpl; lia.
Qed.

Lemma named_drops_unnamed ts ts' tool :
  Js.truthy (name tool) = false ->
  named (ts ++ tool :: ts') = named (ts ++ ts').
Proof.
  intros U. unfold named. rewrite !filter_app. simpl. rewrite U. reflexivity.
Qed.

(** One run of the guarded transport call. *)
Lemma call_run serverName toolName client (args : Args) (json : string) w :
  JSON_stringify args = inr json ->
  call serverName toolName client args w
  = let sent :=
      mkWorld (requests w ++ [CallTool toolName args])
              (debugLog w
               ++ [Debug ("INFO: Calling tool " ++ toolName ++ "(" ++ json
                          ++ ")")]) in
    match callTool client (requests w) toolName args with
    | inr result =>
        _convertCallToolResult serverName toolName result client sent
    | inl error =>
        (inl (if instanceof_ToolException error
              then error
              else ToolException ("Error calling tool " ++ toolName ++ ": "
                                  ++ String_of error)),
         mkWorld (requests sent)
                 (debugLog sent
                  ++ [Debug ("Error calling tool " ++ toolName ++ ": "
                             ++ String_of error)]))
    end.
Proof.
  intros J. unfold _callTool, bind at 1, try_catch.
  unfold bind at 1, lift. rewrite J.
  unfold bind at 1, debug, send. cbn [requests debugLog].
  destruct (callTool client (requests w) toolName args) as [error | result].
  - unfold bind, throw. destruct (instanceof_ToolException error); reflexivity.
  - reflexivity.
Qed.

(** A throw of [JSON.stringify] is caught like one of the transport. *)
Lemma call_run_unserialisable serverName toolName client (args : Args)
      (error : Thrown) w :
  JSON_stringify args = inl error ->
  fst (call serverName toolName client args w)
  = inl (if instanceof_ToolException error
         then error
         else ToolException ("Error calling tool " ++ toolName ++ ": "
                             ++ String_of error)).
Proof.
  intros J. unfold _callTool, bind at 1, try_catch.
  unfold bind at 1, lift. rewrite J.
  unfold bind, debug, throw.
  destruct (instanceof_ToolException error); reflexivity.
Qed.

(** C4, as the code has it.  Error translation by the Tool Invoker.  When
    the transport call throws, the invocation throws: the very same value
    when it is already a [ToolException] -- of any kind, upstream-tool,
    invalid-result or invocation alike -- and otherwise a new [ToolException]
    whose message is ["Error calling tool <tool>: "] followed by the
    description of what was thrown.  When the transport call returns, the
    invocation is the Result Converter run on what it returned, unchanged. *)
Theorem callTool_error_translation
        serverName toolName client (args : Args) (json : string) w :
  JSON_stringify args = inr json ->
  match callTool client (requests w) toolName args with
  | inl (ToolException m) =>
      fst (call serverName toolName client args w) = inl (ToolException m)
  | inl (Foreign d) =>
      fst (call serverName toolName client args w)
      = inl (ToolException ("Error calling tool " ++ toolName ++ ": " ++ d))
  | inr result =>
      call serverName toolName client args w
      = _convertCallToolResult serverName toolName result client
          (mkWorld (requests w ++ [CallTool toolName args])
                   (debugLog w
                    ++ [Debug ("INFO: Calling tool " ++ toolName ++ "("
                               ++ json ++ ")")]))
  end.
Proof.
  intros J. rewrite (call_run serverName toolName client args json w J).
  destruct (callTool client (requests w) toolName args) as [[m | d] | result];
    reflexivity.
Qed.

(** C7, as the code has it.  Whatever an invocation throws is either an
    instance of the one class [ToolException], named ["ToolException"] --
    this covers the upstream-tool, the invalid-result and the invocation
    errors alike, which differ in their message only -- or the failure of a
    resource read, passed on as the client raised it.  An observer that does
    not read messages gives the same answer on any two errors of that
    class. *)
Theorem thrown_values_share_one_class
        serverName toolName client (args : Args) w (err : Thrown) :
  fst (call serverName toolName client args w) = inl err ->
  ((exists m, err = ToolException m)
   /\ instanceof_ToolException err = true
   /\ error_name err = Some "ToolException"
   /\ forall (f : Thrown -> bool) (m' : string),
        Spec.message_blind f -> f err = f (ToolException m'))
  \/ read_failure client err.
Proof.
  assert (T : forall m, (exists m0, ToolException m = ToolException m0)
                        /\ instanceof_ToolException (ToolException m) = true
                        /\ error_name (ToolException m) = Some "ToolException"
                        /\ forall (f : Thrown -> bool) (m' : string),
                             Spec.message_blind f ->
                             f (ToolException m) = f (ToolException m')).
  { intros m. repeat split; eauto. }
  destruct (JSON_stringify args) as [error | json] eqn:J.
  - rewrite (call_run_unserialisable serverName toolName client args error w J).
    intros H. injection H as <-. left.
    destruct error as [m | d]; apply T.
  - rewrite (call_run serverName toolName client args json w J). cbv zeta.
    destruct (callTool client (requests w) toolName args)
      as [error | result].
    + intros H. injection H as <-. left.
      destruct error as [m | d]; apply T.
    + intros H. apply convert_failure in H as [[m ->] | R].
      * left. apply T.
      * right. exact R.
Qed.

(** C5.  Fail policy of the Tool Catalog Loader.  Suppose the server
    advertises [ts] and the construction of one of the named tools fails.
    Under the strict policy the load throws the first such failure and
    returns no list.  Under the lenient policy the load returns the tools
    that construct, in catalog order: each of them is the construction of a
    named descriptor, every named descriptor that constructs is among them,
    the failing one is not counted, and a debug record naming the failing
    tool and carrying its error has been written. *)
Theorem load_fail_policy
        serverName client w ts (bad : MCPTool JSONSchema) (e : Thrown) :
  listTools client (requests w) = inr (mkListToolsResult (Some ts)) ->
  In bad (named ts) ->
  build serverName client bad = inl e ->
  (exists e', failure serverName client (named ts) = Some e'
              /\ fst (load serverName client true w) = inl e')
  /\ fst (load serverName client false w)
     = inr (built serverName client (named ts))
  /\ (forall dst,
        In dst (built serverName client (named ts))
        <-> exists tool, In tool (named ts)
                         /\ build serverName client tool = inr dst)
  /\ length (built serverName client (named ts)) < length (named ts)
  /\ In (failed_record bad e)
        (debugLog (snd (load serverName client false w))).
Proof.
  intros L I B.
  destruct (first_failure_exists serverName client (named ts) bad e I B)
    as [e' F].
  split; [| split; [| split; [| split]]].
  - exists e'. split; [exact F |].
    rewrite (load_run serverName client true w _ L). cbn [tools Js.nullish].
    unfold load_outcome. rewrite F. reflexivity.
  - rewrite (load_run serverName client false w _ L). reflexivity.
  - intros dst. apply built_members.
  - exact (built_shorter serverName client (named ts) bad e I B).
  - unfold loadMcpTools, bind at 1, send. rewrite L.
    unfold bind at 1, debug. unfold bind, ret. cbn [tools Js.nullish].
    match goal with
    | |- context [mapM ?f ?l ?w1] =>
        destruct (load_all_world serverName client false l w1)
          as (_ & added & D & A);
        destruct (mapM f l w1) as [[e2 | loaded] w2]
    end; cbn [fst snd debugLog] in *; rewrite D; apply in_or_app; right;
      apply (A eq_refl bad e I B).
Qed.

(** C9.  Name filtering by the Tool Catalog Loader.  A load sends exactly
    one request to the client, the one that lists the tools.  When the
    advertised list holds a descriptor whose name is absent or empty, that
    descriptor plays no part: the outcome is the one the other descriptors
    give by themselves -- so it raises no error, not even under the strict
    policy when its own schema could not be converted -- and under the
    lenient policy the returned list is exactly the constructed tools of the
    other named descriptors. *)
Theorem load_name_filter serverName client (strict : bool) w :
  requests (snd (load serverName client strict w)) = requests w ++ [ListTools]
  /\ forall (pre post : list (MCPTool JSONSchema)) (u : MCPTool JSONSchema),
      name u = None \/ name u = Some "" ->
      listTools client (requests w)
      = inr (mkListToolsResult (Some (pre ++ u :: post))) ->
      fst (load serverName client strict w)
      = outcome serverName client strict (named (pre ++ post))
      /\ (strict = false \/ failure serverName client (named (pre ++ post))
                            = None ->
          fst (load serverName client strict w)
          = inr (built serverName client (named (pre ++ post)))).
Proof.
  split; [apply load_requests |].
  intros pre post u U L.
  assert (Hu : Js.truthy (name u) = false)
    by (destruct U as [-> | ->]; reflexivity).
  rewrite (load_run serverName client strict w _ L). cbn [tools Js.nullish].
  rewrite (named_drops_unnamed pre post u Hu).
  split; [reflexivity |].
  unfold load_outcome. intros [-> | ->]; [| destruct strict]; reflexivity.
Qed.

End InvokerProperties.

(* ===================================================================== *)
(** ** The code run on the concrete server *)
(* ===================================================================== *)

(** The reads of the demo server never fail. *)
Lemma demo_reads_succeed : reads_succeed Demo.client.
Proof. intros h u. eexists. reflexivity. Defined.

(** Calling a tool that answers with the single text ["5"] gives that string
    and no artifact. *)
Example invocation_of_five :
  fst (_callTool Demo.stringify "math" "add" Demo.client "{a:2,b:3}" Demo.start)
  = inr (ContentString "5", []).
Proof. reflexivity. Qed.

(** The three-tool catalog with one unparseable schema: two tools under the
    lenient policy, the error under the strict one. *)
Example lenient_keeps_two :
  exists dsts,
    fst (loadMcpTools Demo.stringify Demo.convert Demo.emptyObject
                      "math" Demo.client false Demo.start) = inr dsts
    /\ map (@dst_name _ _) dsts = ["add"; "echo"].
Proof. eexists. split; reflexivity. Qed.

Example strict_aborts :
  fst (loadMcpTools Demo.stringify Demo.convert Demo.emptyObject
                    "math" Demo.client true Demo.start)
  = inl (Foreign "Error: Unsupported schema type").
Proof. reflexivity. Qed.

(** Unwrapping counts fragments, not blocks: a text block next to an inline
    resource still gives the bare string, the resource being the artifact. *)
Example text_beside_resource_is_unwrapped :
  _convertCallToolResult "fs" "read"
    (Demo.succeeded [TextContent "done"; ResourceBlock Demo.inline])
    Demo.client Demo.start
  = (inr (ContentString "done", [Demo.inline]), Demo.start).
Proof. reflexivity. Qed.

(** A true [isError] wins over a block of a kind the converter does not
    know. *)
Example isError_before_block_kinds :
  fst (_convertCallToolResult "fs" "read"
         (Demo.failed [Demo.audio; TextContent "no such file"])
         Demo.client Demo.start)
  = inl (ToolException
           ("MCP tool 'read' on server 'fs' returned an error: "
            ++ Js.LF ++ "no such file")).
Proof. reflexivity. Qed.

(** Two references are both requested before either answer is used, in block
    order. *)
Example reads_are_issued_in_block_order :
  requests (snd (_convertCallToolResult "fs" "read"
                   (Demo.succeeded [ResourceBlock Demo.reference;
                                    TextContent "done";
                                    ResourceBlock Demo.reference])
                   Demo.client Demo.start))
  = [ReadResource "file:///notes.txt"; ReadResource "file:///notes.txt"].
Proof. reflexivity. Qed.

Lemma convert_normalization_witness :
  Js.truthy_bool (Some false) = false
  /\ reads_succeed Demo.client
  /\ (exists primary artifacts,
        fst (_convertCallToolResult "math" "add" Demo.five Demo.client
                                    Demo.start)
        = inr (primary, artifacts)
        /\ Spec.normalized [MessageContentText "5"] primary)
  /\ exists out,
      fst (_convertCallToolResult "math" "add" Demo.five Demo.client
                                  Demo.start) = inr out.
Proof.
  split; [reflexivity |]. split; [exact demo_reads_succeed |].
  destruct (convert_normalization "math" "add" [TextContent "5"] (Some false)
              Demo.client Demo.start eq_refl) as (fs & Hfs & Hm & Hret).
  injection Hfs as <-. split.
  - exists (ContentString "5"), []. split; [reflexivity |].
    exact (proj1 Hm).
  - exact (Hret demo_reads_succeed).
Defined.

Lemma isError_message_witness :
  (forall b, In b [TextContent "no such file"; TextContent "try again"] ->
             text_of b <> None)
  /\ Js.join Js.LF (map text_of [TextContent "no such file";
                                 TextContent "try again"])
     = Spec.joined_text [TextContent "no such file"; TextContent "try again"].
Proof.
  assert (H : forall b,
             In b [TextContent "no such file"; TextContent "try again"] ->
             text_of b <> None).
  { intros b [<- | [<- | []]]; simpl; discriminate. }
  split; [exact H |].
  apply (proj2 (proj2 (isError_message "fs" "read"
                         [TextContent "no such file"; TextContent "try again"]
                         Demo.client Demo.start))).
  exact H.
Defined.

(** With no block the message is the lead-in, not the empty string; and a
    block without text leaves an empty entry, so the joined part is not the
    joined text of the blocks that have one. *)
Lemma isError_message_is_not_the_joined_text :
  Spec.joined_text (@nil ContentBlock) = ""
  /\ fst (_convertCallToolResult "math" "add" (Demo.failed [])
                                 Demo.client Demo.start)
     = inl (ToolException "MCP tool 'add' on server 'math' returned an error: ")
  /\ fst (_convertCallToolResult "math" "add" (Demo.failed [])
                                 Demo.client Demo.start)
     <> inl (ToolException (Spec.joined_text []))
  /\ Spec.joined_text [ImageContent "QQ==" "image/png"; TextContent "boom"]
     = "boom"
  /\ fst (_convertCallToolResult "math" "add"
            (Demo.failed [ImageContent "QQ==" "image/png"; TextContent "boom"])
            Demo.client Demo.start)
     = inl (ToolException
              ("MCP tool 'add' on server 'math' returned an error: "
               ++ Js.LF ++ "boom")).
Proof.
  repeat split; try reflexivity.
  discriminate.
Qed.

Lemma resolver_behaviour_witness :
  _embeddedResourceToArtifact Demo.inline Demo.client Demo.start
  = (inr [Demo.inline], Demo.start)
  /\ snd (_embeddedResourceToArtifact Demo.reference Demo.client Demo.start)
     = mkWorld [ReadResource "file:///notes.txt"] []
  /\ fst (_embeddedResourceToArtifact Demo.reference Demo.client Demo.start)
     = inr [mkEmbeddedResource None None None Demo.part1;
            mkEmbeddedResource None None None Demo.part2].
Proof.
  split.
  - apply (proj1 (resolver_behaviour Demo.inline Demo.client Demo.start)).
    reflexivity.
  - destruct (proj2 (resolver_behaviour Demo.reference Demo.client Demo.start)
                eq_refl eq_refl eq_refl) as [W R].
    split; [exact W | exact R].
Defined.

(** A block that carries a [text], the empty one, and a [uri] is not
    returned unchanged: it is read again from the server. *)
Lemma resolver_refetches_empty_text :
  Spec.resolved_or_unresolvable Demo.empty_file = true
  /\ _embeddedResourceToArtifact Demo.empty_file Demo.client Demo.start
     <> (inr [Demo.empty_file], Demo.start)
  /\ requests (snd (_embeddedResourceToArtifact Demo.empty_file Demo.client
                                                Demo.start))
     = [ReadResource "file:///empty.txt"].
Proof.
  split; [reflexivity |]. split; [| reflexivity].
  intros H. discriminate H.
Qed.

Lemma classifier_fragments_witness :
  Js.truthy_bool None = false
  /\ _convertCallToolResult "cam" "snap"
       (ResultObject
          (mkCallToolResult (ContentArray [ImageContent "QQ==" "image/png"])
                            None))
       Demo.client Demo.start
     = (inr (ContentFragments
               [MessageContentImageUrl "data:image/png;base64,QQ=="], []),
        Demo.start).
Proof.
  split; [reflexivity |].
  apply (proj2 (proj2 (proj2 (classifier_fragments "cam" "snap")))
           "QQ==" "image/png" None Demo.client Demo.start).
  reflexivity.
Defined.

Lemma undeclared_block_is_dropped_witness :
  declared_kind (type_of Demo.audio) = false
  /\ Js.truthy_bool (Some false) = false
  /\ _convertCallToolResult "math" "add"
       (Demo.succeeded ([TextContent "5"] ++ Demo.audio :: []))
       Demo.client Demo.start
     = _convertCallToolResult "math" "add"
         (Demo.succeeded ([TextContent "5"] ++ []))
         Demo.client Demo.start.
Proof.
  split; [reflexivity |]. split; [reflexivity |].
  apply (undeclared_block_is_dropped "math" "add" [TextContent "5"] Demo.audio
           [] (Some false) Demo.client Demo.start eq_refl eq_refl).
Defined.

Lemma callTool_error_translation_witness :
  Demo.stringify "{a:2,b:3}" = inr "{a:2,b:3}"
  /\ fst (_callTool Demo.stringify "math" "add" Demo.offline "{a:2,b:3}"
                    Demo.start)
     = inl (ToolException
              "Error calling tool add: Error: Connection closed").
Proof.
  split; [reflexivity |].
  exact (callTool_error_translation Demo.stringify "math" "add" Demo.offline
           "{a:2,b:3}" "{a:2,b:3}" Demo.start eq_refl).
Defined.

(** A transport that raises the invocation error of a nested invoker: the
    value is not an upstream-tool error, yet it is rethrown as it is and not
    wrapped as an invocation error of this call. *)
Lemma nested_invocation_error_is_not_wrapped :
  ~ upstream_tool_error Cases.nested_failure
  /\ callTool Cases.relay (requests Demo.start) "add" "{a:2,b:3}"
     = inl Cases.nested_failure
  /\ fst (_callTool Demo.stringify "math" "add" Cases.relay "{a:2,b:3}"
                    Demo.start)
     = inl Cases.nested_failure
  /\ fst (_callTool Demo.stringify "math" "add" Cases.relay "{a:2,b:3}"
                    Demo.start)
     <> inl (invocation_error "add" Cases.nested_failure).
Proof.
  split; [| split; [reflexivity | split; [reflexivity |]]].
  - intros (serverName & toolName & blocks & H).
    unfold Cases.nested_failure, msg_isError in H.
    injection H as H. simpl in H. discriminate H.
  - intros H. discriminate H.
Qed.

Lemma thrown_values_share_one_class_witness :
  exists err,
    fst (_callTool Demo.stringify "math" "add"
                   (Demo.server [] (inr (Demo.failed [TextContent "boom"])))
                   "{a:2,b:3}" Demo.start) = inl err
    /\ instanceof_ToolException err = true.
Proof.
  eexists. split; [reflexivity |].
  destruct (thrown_values_share_one_class Demo.stringify "math" "add"
              (Demo.server [] (inr (Demo.failed [TextContent "boom"])))
              "{a:2,b:3}" Demo.start _ eq_refl) as [(_ & I & _) | (h & u & R)].
  - exact I.
  - discriminate R.
Defined.

(** The error of a tool that reported failure and the error of a missing
    result are told apart by no observer that leaves the message alone. *)
Lemma error_kinds_differ_in_message_only :
  ~ exists f : Thrown -> bool,
      Spec.message_blind f
      /\ (forall err,
            fst (_convertCallToolResult "math" "add"
                   (Demo.failed [TextContent "division by zero"])
                   Demo.client Demo.start) = inl err ->
            f err = true)
      /\ (forall err,
            fst (_convertCallToolResult "math" "add" ResultUndefined
                   Demo.client Demo.start) = inl err ->
            f err = false).
Proof.
  intros (f & B & U & I).
  assert (U' : f (ToolException
                    (msg_isError "math" "add"
                                 [TextContent "division by zero"])) = true)
    by (apply U; reflexivity).
  assert (I' : f (ToolException (msg_undefined "math" "add")) = false)
    by (apply I; reflexivity).
  rewrite (B _ (msg_undefined "math" "add")) in U'.
  rewrite U' in I'. discriminate I'.
Qed.

Lemma load_fail_policy_witness :
  fst (loadMcpTools Demo.stringify Demo.convert Demo.emptyObject
                    "math" Demo.client true Demo.start)
  = inl (Foreign "Error: Unsupported schema type")
  /\ (exists dsts,
        fst (loadMcpTools Demo.stringify Demo.convert Demo.emptyObject
                          "math" Demo.client false Demo.start) = inr dsts
        /\ map (@dst_name _ _) dsts = ["add"; "echo"])
  /\ In (DebugWith ("ERROR: Failed to load tool " ++ Js.QUOTE ++ "broken"
                    ++ Js.QUOTE ++ ":")
                   (Foreign "Error: Unsupported schema type"))
        (debugLog (snd (loadMcpTools Demo.stringify Demo.convert
                                     Demo.emptyObject "math" Demo.client false
                                     Demo.start))).
Proof.
  destruct (load_fail_policy Demo.stringify Demo.convert Demo.emptyObject
              "math" Demo.client Demo.start [Demo.add; Demo.broken; Demo.echo]
              Demo.broken (Foreign "Error: Unsupported schema type")
              eq_refl (or_intror (or_introl eq_refl)) eq_refl)
    as ((e' & F & S) & Len & _ & _ & D).
  split; [| split].
  - rewrite S. injection F as <-. reflexivity.
  - eexists. split; [exact Len | reflexivity].
  - exact D.
Defined.

Lemma load_name_filter_witness :
  requests (snd (loadMcpTools Demo.stringify Demo.convert Demo.emptyObject
                   "math"
                   (Demo.server [Demo.add; Demo.anonymous; Demo.echo]
                                (inr Demo.five))
                   true Demo.start))
  = [ListTools]
  /\ exists dsts,
      fst (loadMcpTools Demo.stringify Demo.convert Demo.emptyObject
             "math"
             (Demo.server [Demo.add; Demo.anonymous; Demo.echo]
                          (inr Demo.five))
             true Demo.start) = inr dsts
      /\ map (@dst_name _ _) dsts = ["add"; "echo"].
Proof.
  destruct (load_name_filter Demo.stringify Demo.convert Demo.emptyObject
              "math"
              (Demo.server [Demo.add; Demo.anonymous; Demo.echo]
                           (inr Demo.five))
              true Demo.start) as [R F].
  split; [exact R |].
  destruct (F [Demo.add] [Demo.echo] Demo.anonymous (or_intror eq_refl)
              eq_refl) as [_ G].
  eexists. split; [apply G; right; reflexivity | reflexivity].
Defined.

(* ===================================================================== *)
(** ** More on the resolver and the converter *)
(* ===================================================================== *)

Section ConverterTraffic.

Context {Args JSONSchema : Type}.
Implicit Types (client : Client Args JSONSchema) (w : World Args).
Implicit Types (serverName toolName : string).
Implicit Types (blocks : list ContentBlock) (r : EmbeddedResource).

Lemma world_eta w : mkWorld (requests w) (debugLog w) = w.
Proof. destruct w; reflexivity. Qed.

(** The world after one resolution. *)
Lemma resolver_world r client w :
  snd (_embeddedResourceToArtifact r client w)
  = mkWorld (requests w
             ++ (if needs_read r
                 then [ReadResource (rc_uri (resource r))]
                 else []))
            (debugLog w).
Proof.
  unfold _embeddedResourceToArtifact, bind, send, ret.
  fold (needs_read r). destruct (needs_read r); simpl.
  - destruct (readResource client (requests w) (rc_uri (resource r)));
      reflexivity.
  - rewrite app_nil_r. symmetry. apply world_eta.
Qed.

(** The world after the joint resolution: every read has been sent. *)
Lemma Promise_all_world (rs : list EmbeddedResource) client w :
  snd (Promise_all (map (fun r => _embeddedResourceToArtifact r client) rs) w)
  = mkWorld (requests w
             ++ map (fun r => ReadResource (rc_uri (resource r)))
                    (filter needs_read rs))
            (debugLog w).
Proof.
  revert w. induction rs as [| r rest IH]; intros w; simpl.
  - rewrite app_nil_r. symmetry. apply world_eta.
  - pose proof (resolver_world r client w) as W.
    destruct (_embeddedResourceToArtifact r client w) as [o w1].
    simpl in W. subst w1.
    match goal with
    | |- context [Promise_all _ ?w1] => specialize (IH w1)
    end.
    destruct (Promise_all _ _) as [os w2]. simpl in IH |- *. subst w2.
    cbn [requests debugLog]. rewrite <- app_assoc.
    destruct (needs_read r); reflexivity.
Qed.

Lemma artifacts_world blocks client w :
  snd (artifacts_of blocks client w)
  = mkWorld (requests w ++ reads_of blocks) (debugLog w).
Proof.
  unfold artifacts_of, bind, ret, reads_of.
  pose proof (Promise_all_world (resource_blocks blocks) client w) as W.
  destruct (Promise_all _ w) as [[e | parts] w']; simpl in *; exact W.
Qed.

(** The world after a conversion, whatever the result. *)
Lemma convert_world serverName toolName (result : RawResult) client w :
  exists reads,
    snd (_convertCallToolResult serverName toolName result client w)
    = mkWorld (requests w ++ reads) (debugLog w)
    /\ forallb is_read reads = true.
Proof.
  assert (Same : exists reads : list (ClientRequest Args),
             w = mkWorld (requests w ++ reads) (debugLog w)
             /\ forallb is_read reads = true).
  { exists []. rewrite app_nil_r, world_eta. split; reflexivity. }
  destruct result as [| | [[blocks | v] e]]; try exact Same.
  destruct (Js.truthy_bool e) eqn:He.
  - unfold _convertCallToolResult. cbn [content isError]. rewrite He.
    exact Same.
  - destruct (fragments_total serverName toolName blocks) as [fs Hfs].
    rewrite (convert_unfold serverName toolName blocks e client w fs He Hfs).
    pose proof (artifacts_world blocks client w) as W.
    exists (reads_of blocks). split.
    + destruct (artifacts_of blocks client w) as [[err | a] w']; exact W.
    + unfold reads_of. induction (filter needs_read (resource_blocks blocks));
        simpl; auto.
Qed.

(** Without a block to read, the joint resolution is the blocks
    themselves. *)
Lemma Promise_all_inline (rs : list EmbeddedResource) client w :
  (forall r, In r rs -> needs_read r = false) ->
  Promise_all (map (fun r => _embeddedResourceToArtifact r client) rs) w
  = (inr (map (fun r => [r]) rs), w).
Proof.
  induction rs as [| r rest IH]; intros Inline; simpl; [reflexivity |].
  assert (Hr : needs_read r = false) by (apply Inline; left; reflexivity).
  unfold _embeddedResourceToArtifact at 1. fold (needs_read r). rewrite Hr.
  unfold ret at 1.
  rewrite IH by (intros r' I; apply Inline; right; exact I).
  reflexivity.
Qed.

Lemma concat_singletons {A : Type} (xs : list A) :
  concat (map (fun x => [x]) xs) = xs.
Proof. induction xs as [| x rest IH]; simpl; [| rewrite IH]; reflexivity. Qed.

(** With a server that answers by [answer], the joint resolution is the
    per-block results, in order. *)
Lemma Promise_all_answered (answer : string -> ReadResourceResult)
      (rs : list EmbeddedResource) client w :
  (forall h u, readResource client h u = inr (answer u)) ->
  fst (Promise_all (map (fun r => _embeddedResourceToArtifact r client) rs) w)
  = inr (map (resolved_with answer) rs).
Proof.
  intros Ans. revert w. induction rs as [| r rest IH]; intros w; simpl;
    [reflexivity |].
  unfold _embeddedResourceToArtifact at 1, resolved_with at 1.
  fold (needs_read r).
  destruct (needs_read r).
  - unfold bind, send, ret. rewrite Ans.
    match goal with
    | |- context [Promise_all _ ?w1] => specialize (IH w1)
    end.
    destruct (Promise_all _ _) as [os w2]. simpl in IH |- *. subst os.
    do 2 f_equal. apply map_ext. exact rewrap_keeps_part.
  - unfold ret at 1. specialize (IH w).
    destruct (Promise_all _ _) as [os w2]. simpl in IH |- *. subst os.
    reflexivity.
Qed.

Lemma map_throwing_length {A B : Type} (f : A -> Thrown + B) (xs : list A)
      (ys : list B) :
  map_throwing f xs = inr ys -> length ys = length xs.
Proof.
  revert ys. induction xs as [| x rest IH]; simpl; intros ys H.
  - injection H as <-. reflexivity.
  - destruct (f x) as [e | b]; [discriminate |].
    destruct (map_throwing f rest) as [e | bs]; [discriminate |].
    injection H as <-. simpl. rewrite (IH bs eq_refl). reflexivity.
Qed.

Lemma fragments_app serverName toolName blocks blocks' fs fs' :
  mcpTextAndImageContent serverName toolName blocks = inr fs ->
  mcpTextAndImageContent serverName toolName blocks' = inr fs' ->
  mcpTextAndImageContent serverName toolName (blocks ++ blocks')
  = inr (fs ++ fs').
Proof.
  unfold mcpTextAndImageContent. revert fs.
  induction blocks as [| b rest IH]; simpl; intros fs H H'.
  - injection H as <-. exact H'.
  - destruct (is_text_or_image b); [| auto].
    simpl in *.
    destruct (classify serverName toolName b) as [e | f]; [discriminate |].
    destruct (map_throwing (classify serverName toolName)
                           (filter is_text_or_image rest)) as [e | fr];
      [discriminate |].
    injection H as <-. rewrite (IH fr eq_refl H'). reflexivity.
Qed.

(** X1.  The traffic of a conversion.  For a result that is not an error,
    the conversion sends exactly one read for each resource block with a
    non-empty uri and no non-empty payload, for the uri of its nested
    resource, in block order, and nothing else; it sends all of them whether
    or not some read fails, and it writes no debug record. *)
Theorem conversion_traffic
        serverName toolName blocks (e : option bool) client w :
  Js.truthy_bool e = false ->
  snd (_convertCallToolResult serverName toolName
         (ResultObject (mkCallToolResult (ContentArray blocks) e)) client w)
  = mkWorld (requests w ++ reads_of blocks) (debugLog w).
Proof.
  intros He.
  destruct (fragments_total serverName toolName blocks) as [fs Hfs].
  rewrite (convert_unfold serverName toolName blocks e client w fs He Hfs).
  pose proof (artifacts_world blocks client w) as W.
  destruct (artifacts_of blocks client w) as [[err | a] w']; exact W.
Qed.

(** X2.  A result none of whose resource blocks has to be read converts
    without touching the world and without failing, and its artifacts are
    exactly its resource blocks, in their original order. *)
Theorem inline_resources_are_the_artifacts
        serverName toolName blocks (e : option bool) client w :
  Js.truthy_bool e = false ->
  (forall r, In r (resource_blocks blocks) -> needs_read r = false) ->
  exists primary,
    _convertCallToolResult serverName toolName
      (ResultObject (mkCallToolResult (ContentArray blocks) e)) client w
    = (inr (primary, resource_blocks blocks), w).
Proof.
  intros He Inline.
  destruct (fragments_total serverName toolName blocks) as [fs Hfs].
  rewrite (convert_unfold serverName toolName blocks e client w fs He Hfs).
  unfold artifacts_of, bind at 1.
  rewrite (Promise_all_inline (resource_blocks blocks) client w Inline).
  unfold ret. rewrite concat_singletons. eexists. reflexivity.
Qed.

(** X3.  Artifacts are assembled in block order.  When the server answers
    every read of [u] with [answer u], the artifacts are the concatenation,
    over the resource blocks in their original order, of the block itself
    when it needs no read and of the parts of the answer, each wrapped as a
    resource block, when it does. *)
Theorem artifacts_in_block_order
        (answer : string -> ReadResourceResult)
        serverName toolName blocks (e : option bool) client w :
  Js.truthy_bool e = false ->
  (forall h u, readResource client h u = inr (answer u)) ->
  exists primary,
    fst (_convertCallToolResult serverName toolName
           (ResultObject (mkCallToolResult (ContentArray blocks) e)) client w)
    = inr (primary,
           flat_map (resolved_with answer) (resource_blocks blocks)).
Proof.
  intros He Ans.
  destruct (fragments_total serverName toolName blocks) as [fs Hfs].
  rewrite (convert_unfold serverName toolName blocks e client w fs He Hfs).
  unfold artifacts_of, bind at 1.
  pose proof (Promise_all_answered answer (resource_blocks blocks) client w Ans)
    as P.
  destruct (Promise_all _ w) as [o w']. simpl in P. subst o.
  unfold ret. rewrite flat_map_concat_map. eexists. reflexivity.
Qed.

(** X4.  Resolution is idempotent on what it returns: a block that came out
    of the resolver, resolved again against any client, comes back alone and
    unchanged, and no request is sent. *)
Theorem resolution_is_idempotent r client w (parts : list EmbeddedResource) :
  fst (_embeddedResourceToArtifact r client w) = inr parts ->
  forall p, In p parts ->
  forall (client' : Client Args JSONSchema) (w' : World Args),
    _embeddedResourceToArtifact p client' w' = (inr [p], w').
Proof.
  unfold _embeddedResourceToArtifact at 1. fold (needs_read r).
  destruct (needs_read r) eqn:N.
  - unfold bind, send, ret.
    destruct (readResource client (requests w) (rc_uri (resource r)))
      as [err | response]; simpl; intros H; [discriminate |].
    injection H as <-. intros p I client' w'.
    apply in_map_iff in I as (c & <- & _). reflexivity.
  - unfold ret. simpl. intros H. injection H as <-.
    intros p [<- | []] client' w'.
    unfold _embeddedResourceToArtifact. fold (needs_read r). rewrite N.
    reflexivity.
Qed.

(** X5.  Classification keeps order and count.  The fragments of two block
    sequences put end to end are the fragments of the first followed by the
    fragments of the second, and there is one fragment for each text or
    image block, resource blocks and blocks of other kinds adding none. *)
Theorem fragments_follow_the_blocks serverName toolName blocks blocks' :
  exists fs fs',
    mcpTextAndImageContent serverName toolName blocks = inr fs
    /\ mcpTextAndImageContent serverName toolName blocks' = inr fs'
    /\ mcpTextAndImageContent serverName toolName (blocks ++ blocks')
       = inr (fs ++ fs')
    /\ length fs = length (filter is_text_or_image blocks).
Proof.
  destruct (fragments_total serverName toolName blocks) as [fs Hfs].
  destruct (fragments_total serverName toolName blocks') as [fs' Hfs'].
  exists fs, fs'. split; [exact Hfs |]. split; [exact Hfs' |]. split.
  - exact (fragments_app serverName toolName blocks blocks' fs fs' Hfs Hfs').
  - exact (map_throwing_length _ _ fs Hfs).
Qed.

End ConverterTraffic.

(* ===================================================================== *)
(** ** More on the invoker, the loader and the logger *)
(* ===================================================================== *)

Section InvokerTraffic.

Context {Args JSONSchema ZodSchema : Type}.
Variable JSON_stringify : Args -> Thrown + string.
Variable JSONSchemaToZod_convert : JSONSchema -> Thrown + ZodSchema.
Variable emptyObjectSchema : JSONSchema.
Implicit Types (client : Client Args JSONSchema) (w : World Args).
Implicit Types (serverName toolName : string).
Implicit Types (ts : list (MCPTool JSONSchema)) (tool : MCPTool JSONSchema).

Local Abbreviation call := (_callTool JSON_stringify).
Local Abbreviation load :=
  (loadMcpTools JSON_stringify JSONSchemaToZod_convert emptyObjectSchema).
Local Abbreviation load_tool :=
  (load_one JSON_stringify JSONSchemaToZod_convert emptyObjectSchema).
Local Abbreviation build :=
  (construct_tool JSON_stringify JSONSchemaToZod_convert emptyObjectSchema).
Local Abbreviation built :=
  (constructed JSON_stringify JSONSchemaToZod_convert emptyObjectSchema).
Local Abbreviation failure :=
  (first_failure JSON_stringify JSONSchemaToZod_convert emptyObjectSchema).
Local Abbreviation outcome :=
  (load_outcome JSON_stringify JSONSchemaToZod_convert emptyObjectSchema).

(** The whole run of the [map] callback, in the records of this part. *)
Lemma load_tool_step serverName client (strict : bool) tool w :
  load_tool serverName client strict tool w
  = match build serverName client tool with
    | inr dst =>
        (inr (Some dst),
         mkWorld (requests w) (debugLog w ++ [loaded_record dst]))
    | inl e =>
        (if strict then inl e else inr None,
         mkWorld (requests w)
                 (debugLog w ++ [failed_to_load_record tool e]))
    end.
Proof.
  exact (load_tool_run JSON_stringify JSONSchemaToZod_convert
           emptyObjectSchema serverName client strict tool w).
Qed.

(** The whole run of a load, given what the listing answered. *)
Lemma load_unfold serverName client (strict : bool) w
      (response : ListToolsResult JSONSchema) :
  listTools client (requests w) = inr response ->
  load serverName client strict w
  = match mapM (load_tool serverName client strict)
               (named (Js.nullish (tools response) []))
               (mkWorld (requests w ++ [ListTools])
                        (debugLog w
                         ++ [found_record
                               (match tools response with
                                | Some l => length l
                                | None => 0
                                end)])) with
    | (inl e, w') => (inl e, w')
    | (inr loaded, w') => (inr (filter_Boolean loaded), w')
    end.
Proof.
  intros L. unfold loadMcpTools, bind at 1, send. rewrite L.
  unfold bind at 1, debug. unfold bind, ret. reflexivity.
Qed.

(** While the tools construct, the [map] only collects them and writes
    their records. *)
Lemma load_all_prefix serverName client (strict : bool)
      (pre rest : list (MCPTool JSONSchema)) w :
  failure serverName client pre = None ->
  mapM (load_tool serverName client strict) (pre ++ rest) w
  = match mapM (load_tool serverName client strict) rest
            (mkWorld (requests w)
                     (debugLog w
                      ++ map (@loaded_record Args ZodSchema)
                             (built serverName client pre))) with
    | (inl e, w') => (inl e, w')
    | (inr l, w') => (inr (map Some (built serverName client pre) ++ l), w')
    end.
Proof.
  revert w. induction pre as [| tool pre' IH]; intros w F.
  - simpl. rewrite app_nil_r, world_eta.
    destruct (mapM _ rest w) as [[e | l] w']; reflexivity.
  - simpl in F. simpl app. rewrite mapM_cons, load_tool_step.
    simpl constructed.
    destruct (build serverName client tool) as [e | dst]; [discriminate |].
    rewrite (IH _ F). cbn [requests debugLog map].
    rewrite <- app_assoc.
    destruct (mapM _ rest _) as [[e | l] w']; reflexivity.
Qed.

Lemma built_all serverName client ts :
  failure serverName client ts = None ->
  length (built serverName client ts) = length ts.
Proof.
  induction ts as [| tool rest IH]; simpl; intros F; [reflexivity |].
  destruct (build serverName client tool); [discriminate |].
  simpl. rewrite (IH F). reflexivity.
Qed.

Lemma built_fields serverName client tool
      (dst : DynamicStructuredTool Args ZodSchema) :
  build serverName client tool = inr dst ->
  dst_name dst = Js.join_item (name tool)
  /\ dst_description dst = Js.or_else (description tool) ""
  /\ dst_responseFormat dst = "content_and_artifact"
  /\ dst_func dst = call serverName (dst_name dst) client.
Proof.
  unfold construct_tool, construct.
  destruct (JSONSchemaToZod_convert _) as [e | schema]; [discriminate |].
  intros H. injection H as <-. repeat split.
Qed.

Lemma named_member ts tool :
  In tool (named ts) ->
  In tool ts
  /\ name tool = Some (Js.join_item (name tool))
  /\ Js.join_item (name tool) <> "".
Proof.
  unfold named. intros I. apply filter_In in I as [I T].
  split; [exact I |].
  destruct (name tool) as [[| c n] |]; try discriminate T.
  split; [reflexivity | discriminate].
Qed.

Lemma filter_length_le {A : Type} (f : A -> bool) (xs : list A) :
  length (filter f xs) <= length xs.
Proof.
  induction xs as [| x rest IH]; simpl; [lia |].
  destruct (f x); simpl; lia.
Qed.

(** X6.  When the arguments cannot be serialised for the trace record, the
    tool is never called: no request is sent, the only debug record is the
    error one, and the invocation throws what [JSON.stringify] threw -- as it
    is when it is a [ToolException], and otherwise wrapped in one whose
    message is ["Error calling tool <tool>: "] and the description. *)
Theorem unserialisable_arguments_stop_the_call
        serverName toolName client (args : Args) (error : Thrown) w :
  JSON_stringify args = inl error ->
  call serverName toolName client args w
  = (inl (if instanceof_ToolException error
          then error
          else ToolException ("Error calling tool " ++ toolName ++ ": "
                              ++ String_of error)),
     mkWorld (requests w)
             (debugLog w
              ++ [Debug ("Error calling tool " ++ toolName ++ ": "
                         ++ String_of error)])).
Proof.
  intros J. unfold _callTool, bind at 1, try_catch.
  unfold bind at 1, lift. rewrite J.
  unfold bind, debug, throw.
  destruct (instanceof_ToolException error); reflexivity.
Qed.

(** X7.  One call per invocation.  With serialisable arguments an
    invocation sends the tool call once, first, and after it only resource
    reads: it never lists tools and never calls a tool twice.  When the
    transport throws no read follows.  The first debug record it writes is
    the one announcing the call. *)
Theorem one_call_per_invocation
        serverName toolName client (args : Args) (json : string) w :
  JSON_stringify args = inr json ->
  exists reads later,
    requests (snd (call serverName toolName client args w))
    = requests w ++ CallTool toolName args :: reads
    /\ forallb is_read reads = true
    /\ (forall e, callTool client (requests w) toolName args = inl e ->
                  reads = [])
    /\ debugLog (snd (call serverName toolName client args w))
       = debugLog w
         ++ Debug ("INFO: Calling tool " ++ toolName ++ "(" ++ json ++ ")")
         :: later.
Proof.
  intros J. rewrite (call_run JSON_stringify serverName toolName client args
                       json w J). cbv zeta.
  destruct (callTool client (requests w) toolName args) as [e | result].
  - exists [], [Debug ("Error calling tool " ++ toolName ++ ": "
                       ++ String_of e)].
    cbn [snd requests debugLog]. rewrite <- app_assoc.
    repeat split; reflexivity.
  - match goal with
    | |- context [_convertCallToolResult _ _ _ _ ?w1] =>
        destruct (convert_world serverName toolName result client w1)
          as (reads & W & R)
    end.
    exists reads, []. rewrite W. cbn [requests debugLog].
    rewrite <- !app_assoc. repeat split; try assumption; try reflexivity.
    intros e H. discriminate H.
Qed.

(** X8.  An invocation end to end.  When the tool answers with a result
    that is not an error and has no resource block to read, the invocation
    returns, its artifacts are the resource blocks of the result in order,
    one request has been sent, the call, and one debug record written. *)
Theorem invocation_without_reads
        serverName toolName client (args : Args) (json : string) w
        (blocks : list ContentBlock) (e : option bool) :
  JSON_stringify args = inr json ->
  callTool client (requests w) toolName args
  = inr (ResultObject (mkCallToolResult (ContentArray blocks) e)) ->
  Js.truthy_bool e = false ->
  (forall r, In r (resource_blocks blocks) -> needs_read r = false) ->
  exists primary,
    call serverName toolName client args w
    = (inr (primary, resource_blocks blocks),
       mkWorld (requests w ++ [CallTool toolName args])
               (debugLog w
                ++ [Debug ("INFO: Calling tool " ++ toolName ++ "(" ++ json
                           ++ ")")])).
Proof.
  intros J C He Inline.
  rewrite (call_run JSON_stringify serverName toolName client args json w J).
  cbv zeta. rewrite C.
  destruct (fragments_total serverName toolName blocks) as [fs Hfs].
  rewrite (convert_unfold serverName toolName blocks e client _ fs He Hfs).
  unfold artifacts_of, bind at 1.
  rewrite (Promise_all_inline (resource_blocks blocks) client _ Inline).
  unfold ret. rewrite concat_singletons. eexists. reflexivity.
Qed.

(** X9.  A failure to list the tools is passed on as it was raised, not
    wrapped in a [ToolException], under either policy; one request was sent
    and no debug record is written. *)
Theorem listing_failure_propagates
        serverName client (strict : bool) w (e : Thrown) :
  listTools client (requests w) = inl e ->
  load serverName client strict w
  = (inl e, mkWorld (requests w ++ [ListTools]) (debugLog w)).
Proof.
  intros L. unfold loadMcpTools, bind at 1, send. rewrite L. reflexivity.
Qed.

(** X10.  A list response without a [tools] property, or with an empty one,
    loads to the empty list under either policy, after one request and the
    single record that says zero tools were found. *)
Theorem nothing_advertised_loads_nothing
        serverName client (strict : bool) w
        (response : ListToolsResult JSONSchema) :
  listTools client (requests w) = inr response ->
  tools response = None \/ tools response = Some [] ->
  load serverName client strict w
  = (inr [], mkWorld (requests w ++ [ListTools])
                     (debugLog w ++ [Debug "INFO: Found 0 MCP tools"])).
Proof.
  intros L T. rewrite (load_unfold serverName client strict w response L).
  destruct T as [-> | ->]; reflexivity.
Qed.

(** X11.  What a loaded tool is.  Every tool a load returns, under either
    policy, comes from an advertised descriptor: it has that descriptor's
    name, which is not empty, its description or the empty string when the
    descriptor has none, the response format ["content_and_artifact"], and
    its function is the invoker bound to the server name, the tool's own
    name and the client the tools were loaded from. *)
Theorem loaded_tools_are_bound
        serverName client (strict : bool) w
        (response : ListToolsResult JSONSchema)
        (dsts : list (DynamicStructuredTool Args ZodSchema)) :
  listTools client (requests w) = inr response ->
  fst (load serverName client strict w) = inr dsts ->
  forall dst, In dst dsts ->
    exists tool,
      In tool (Js.nullish (tools response) [])
      /\ name tool = Some (dst_name dst)
      /\ dst_name dst <> ""
      /\ dst_description dst = Js.or_else (description tool) ""
      /\ dst_responseFormat dst = "content_and_artifact"
      /\ dst_func dst = call serverName (dst_name dst) client.
Proof.
  intros L R dst I.
  rewrite (load_run JSON_stringify JSONSchemaToZod_convert emptyObjectSchema
             serverName client strict w response L) in R.
  assert (D : dsts = built serverName client
                       (named (Js.nullish (tools response) []))).
  { unfold load_outcome in R.
    destruct (failure serverName client
                (named (Js.nullish (tools response) []))), strict;
      congruence. }
  subst dsts.
  apply (built_members JSON_stringify JSONSchemaToZod_convert
           emptyObjectSchema) in I as (tool & It & B).
  apply named_member in It as (It & N & NE).
  apply built_fields in B as (Bn & Bd & Br & Bf).
  exists tool. rewrite Bn. repeat split; try assumption.
  rewrite <- Bn. exact Bf.
Qed.

(** X12.  When every named tool constructs, the policy makes no difference:
    the strict and the lenient load run alike, and return one tool for each
    named descriptor. *)
Theorem policies_agree_without_failure
        serverName client w (response : ListToolsResult JSONSchema) :
  listTools client (requests w) = inr response ->
  failure serverName client (named (Js.nullish (tools response) [])) = None ->
  load serverName client true w = load serverName client false w
  /\ exists dsts,
      fst (load serverName client true w) = inr dsts
      /\ length dsts = length (named (Js.nullish (tools response) [])).
Proof.
  intros L F. split.
  - rewrite !(load_unfold serverName client _ w response L).
    pose proof (load_all_prefix serverName client true
                  (named (Js.nullish (tools response) [])) []) as PT.
    pose proof (load_all_prefix serverName client false
                  (named (Js.nullish (tools response) [])) []) as PF.
    rewrite app_nil_r in PT, PF.
    rewrite (PT _ F), (PF _ F). reflexivity.
  - rewrite (load_run JSON_stringify JSONSchemaToZod_convert
               emptyObjectSchema serverName client true w response L).
    unfold load_outcome. rewrite F. eexists. split; [reflexivity |].
    apply built_all. exact F.
Qed.

(** X13.  The lenient load does not throw once the tools are listed, and it
    cannot return more tools than were advertised. *)
Theorem lenient_load_returns
        serverName client w (response : ListToolsResult JSONSchema) :
  listTools client (requests w) = inr response ->
  exists dsts,
    fst (load serverName client false w) = inr dsts
    /\ length dsts <= length (Js.nullish (tools response) []).
Proof.
  intros L.
  rewrite (load_run JSON_stringify JSONSchemaToZod_convert emptyObjectSchema
             serverName client false w response L).
  eexists. split; [reflexivity |].
  pose proof (built_length JSON_stringify JSONSchemaToZod_convert
                emptyObjectSchema serverName client
                (named (Js.nullish (tools response) []))) as B.
  pose proof (filter_length_le (fun tool => Js.truthy (name tool))
                (Js.nullish (tools response) [])) as N.
  unfold named in *. lia.
Qed.

(** X14.  Catalog order is kept and nothing is merged.  The names of the
    tools a lenient load returns are the names of the named descriptors whose
    schema converts, in the order the server listed them; two descriptors
    with one name give two tools. *)
Theorem loaded_names_in_catalog_order
        serverName client w (response : ListToolsResult JSONSchema)
        (dsts : list (DynamicStructuredTool Args ZodSchema)) :
  listTools client (requests w) = inr response ->
  fst (load serverName client false w) = inr dsts ->
  map (@dst_name Args ZodSchema) dsts
  = flat_map (fun tool =>
                match JSONSchemaToZod_convert
                        (Js.nullish (inputSchema tool) emptyObjectSchema) with
                | inr _ => [Js.join_item (name tool)]
                | inl _ => []
                end)
             (named (Js.nullish (tools response) [])).
Proof.
  intros L R.
  rewrite (load_run JSON_stringify JSONSchemaToZod_convert emptyObjectSchema
             serverName client false w response L) in R.
  injection R as <-.
  induction (named (Js.nullish (tools response) [])) as [| tool rest IH];
    [reflexivity |].
  simpl. unfold construct_tool, construct.
  destruct (JSONSchemaToZod_convert _) as [e | schema]; simpl.
  - exact IH.
  - f_equal. exact IH.
Qed.

(** X15.  The strict load stops at the first failure.  When the named
    descriptors are [pre], then [bad], then [post], the tools of [pre] all
    construct and [bad] does not, the strict load throws the error of [bad]
    and its debug records are the count, one record for each tool of [pre]
    and the error record of [bad]: the descriptors of [post] are not looked
    at. *)
Theorem strict_load_stops_at_first_failure
        serverName client w (response : ListToolsResult JSONSchema)
        (pre post : list (MCPTool JSONSchema)) (bad : MCPTool JSONSchema)
        (e : Thrown) :
  listTools client (requests w) = inr response ->
  named (Js.nullish (tools response) []) = pre ++ bad :: post ->
  failure serverName client pre = None ->
  build serverName client bad = inl e ->
  load serverName client true w
  = (inl e,
     mkWorld (requests w ++ [ListTools])
             (debugLog w
              ++ found_record (length (Js.nullish (tools response) []))
              :: map (@loaded_record Args ZodSchema)
                     (built serverName client pre)
              ++ [failed_to_load_record bad e])).
Proof.
  intros L N F B.
  rewrite (load_unfold serverName client true w response L), N.
  rewrite (load_all_prefix serverName client true pre (bad :: post) _ F).
  rewrite mapM_cons, load_tool_step, B. cbn [requests debugLog].
  rewrite <- !app_assoc.
  destruct (tools response); reflexivity.
Qed.

End InvokerTraffic.

Section LoggerProperties.

Context {Debugger : Type}.
Variable debug : string -> Debugger.

Lemma calls_when_created (d : Debugger) (names : list string) (n : nat) :
  Logger.calls debug n (Logger.mkState (Some d) names)
  = (repeat d n, Logger.mkState (Some d) names).
Proof.
  induction n as [| k IH]; [reflexivity |].
  cbn [Logger.calls]. unfold Logger.getDebugLog. cbn [Logger.debugLog].
  rewrite IH. reflexivity.
Qed.

(** X16.  The logger is created once.  However many times [getDebugLog] is
    called, starting from the fresh module, the [debug] factory has been
    called exactly once, with the namespace
    ["@langchain/mcp-adapters:tools"], and every call returned the logger
    made then. *)
Theorem logger_is_created_once (k : nat) :
  Logger.calls debug (S k) (Logger.initial Debugger)
  = (repeat (debug "@langchain/mcp-adapters:tools") (S k),
     Logger.mkState (Some (debug "@langchain/mcp-adapters:tools"))
                    ["@langchain/mcp-adapters:tools"]).
Proof.
  cbn [Logger.calls]. unfold Logger.getDebugLog, Logger.initial.
  cbn [Logger.debugLog Logger.created app].
  rewrite calls_when_created. reflexivity.
Qed.

End LoggerProperties.

(* ===================================================================== *)
(** ** The further properties on the concrete server *)
(* ===================================================================== *)

Lemma conversion_traffic_witness :
  Js.truthy_bool (Some false) = false
  /\ snd (_convertCallToolResult "fs" "read"
            (Demo.succeeded [ResourceBlock Demo.reference;
                             TextContent "done";
                             ResourceBlock Demo.inline;
                             ResourceBlock Cases.other_reference])
            Demo.offline Demo.start)
     = mkWorld [ReadResource "file:///notes.txt";
                ReadResource "file:///b.txt"] [].
Proof.
  split; [reflexivity |].
  exact (conversion_traffic "fs" "read"
           [ResourceBlock Demo.reference; TextContent "done";
            ResourceBlock Demo.inline; ResourceBlock Cases.other_reference]
           (Some false) Demo.offline Demo.start eq_refl).
Defined.

Lemma inline_resources_are_the_artifacts_witness :
  (forall r, In r (resource_blocks [TextContent "done";
                                    ResourceBlock Demo.inline]) ->
             needs_read r = false)
  /\ exists primary,
      _convertCallToolResult "fs" "read"
        (Demo.succeeded [TextContent "done"; ResourceBlock Demo.inline])
        Demo.offline Demo.start
      = (inr (primary, [Demo.inline]), Demo.start).
Proof.
  assert (H : forall r,
             In r (resource_blocks [TextContent "done";
                                    ResourceBlock Demo.inline]) ->
             needs_read r = false).
  { intros r [<- | []]. reflexivity. }
  split; [exact H |].
  exact (inline_resources_are_the_artifacts "fs" "read"
           [TextContent "done"; ResourceBlock Demo.inline] (Some false)
           Demo.offline Demo.start eq_refl H).
Defined.

Lemma artifacts_in_block_order_witness :
  (forall h u, readResource Cases.mirror_server h u = inr (Cases.mirror u))
  /\ exists primary,
      fst (_convertCallToolResult "fs" "read"
             (Demo.succeeded [ResourceBlock Demo.reference;
                              ResourceBlock Demo.inline])
             Cases.mirror_server Demo.start)
      = inr (primary,
             [mkEmbeddedResource None None None
                (mkResourceContents "file:///notes.txt" None (Some "body")
                                    None);
              Demo.inline]).
Proof.
  assert (H : forall h u,
             readResource Cases.mirror_server h u = inr (Cases.mirror u))
    by (intros h u; reflexivity).
  split; [exact H |].
  exact (artifacts_in_block_order Cases.mirror "fs" "read"
           [ResourceBlock Demo.reference; ResourceBlock Demo.inline]
           (Some false) Cases.mirror_server Demo.start eq_refl H).
Defined.

Lemma resolution_is_idempotent_witness :
  fst (_embeddedResourceToArtifact Demo.reference Demo.client Demo.start)
  = inr [mkEmbeddedResource None None None Demo.part1;
         mkEmbeddedResource None None None Demo.part2]
  /\ _embeddedResourceToArtifact
       (mkEmbeddedResource None None None Demo.part2) Demo.offline Demo.start
     = (inr [mkEmbeddedResource None None None Demo.part2], Demo.start).
Proof.
  split; [reflexivity |].
  apply (resolution_is_idempotent Demo.reference Demo.client Demo.start
           [mkEmbeddedResource None None None Demo.part1;
            mkEmbeddedResource None None None Demo.part2] eq_refl).
  right. left. reflexivity.
Defined.

Lemma unserialisable_arguments_stop_the_call_witness :
  Cases.circular "{}"
  = inl (Foreign "TypeError: Converting circular structure to JSON")
  /\ _callTool Cases.circular "math" "add" Demo.client "{}" Demo.start
     = (inl (ToolException
               "Error calling tool add: TypeError: Converting circular structure to JSON"),
        mkWorld []
          [Debug
             "Error calling tool add: TypeError: Converting circular structure to JSON"]).
Proof.
  split; [reflexivity |].
  exact (unserialisable_arguments_stop_the_call Cases.circular "math" "add"
           Demo.client "{}"
           (Foreign "TypeError: Converting circular structure to JSON")
           Demo.start eq_refl).
Defined.

Lemma one_call_per_invocation_witness :
  Demo.stringify "{}" = inr "{}"
  /\ exists reads,
      requests (snd (_callTool Demo.stringify "fs" "read" Cases.mirror_server
                               "{}" Demo.start))
      = CallTool "read" "{}" :: reads
      /\ forallb (@is_read Demo.Args) reads = true.
Proof.
  split; [reflexivity |].
  destruct (one_call_per_invocation Demo.stringify "fs" "read"
              Cases.mirror_server "{}" "{}" Demo.start eq_refl)
    as (reads & later & R & F & _ & _).
  exists reads. split; [exact R | exact F].
Defined.

Lemma invocation_without_reads_witness :
  Demo.stringify "{}" = inr "{}"
  /\ exists primary,
      _callTool Demo.stringify "fs" "read" Cases.mirror_server "{}" Demo.start
      = (inr (primary, [Demo.inline]),
         mkWorld [CallTool "read" "{}"] [Debug "INFO: Calling tool read({})"]).
Proof.
  split; [reflexivity |].
  assert (H : forall r,
             In r (resource_blocks [TextContent "done";
                                    ResourceBlock Demo.inline]) ->
             needs_read r = false).
  { intros r [<- | []]. reflexivity. }
  exact (invocation_without_reads Demo.stringify "fs" "read"
           Cases.mirror_server "{}" "{}" Demo.start
           [TextContent "done"; ResourceBlock Demo.inline] (Some false)
           eq_refl eq_refl eq_refl H).
Defined.

Lemma listing_failure_propagates_witness :
  listTools Demo.offline (requests Demo.start)
  = inl (Foreign "Error: Connection closed")
  /\ loadMcpTools Demo.stringify Demo.convert Demo.emptyObject
       "math" Demo.offline true Demo.start
     = (inl (Foreign "Error: Connection closed"), mkWorld [ListTools] []).
Proof.
  split; [reflexivity |].
  exact (listing_failure_propagates Demo.stringify Demo.convert
           Demo.emptyObject "math" Demo.offline true Demo.start
           (Foreign "Error: Connection closed") eq_refl).
Defined.

Lemma nothing_advertised_loads_nothing_witness :
  listTools Cases.bare_server (requests Demo.start)
  = inr (mkListToolsResult None)
  /\ loadMcpTools Demo.stringify Demo.convert Demo.emptyObject
       "math" Cases.bare_server true Demo.start
     = (inr [], mkWorld [ListTools] [Debug "INFO: Found 0 MCP tools"]).
Proof.
  split; [reflexivity |].
  exact (nothing_advertised_loads_nothing Demo.stringify Demo.convert
           Demo.emptyObject "math" Cases.bare_server true Demo.start
           (mkListToolsResult None) eq_refl (or_introl eq_refl)).
Defined.

Lemma loaded_tools_are_bound_witness :
  exists dsts,
    fst (loadMcpTools Demo.stringify Demo.convert Demo.emptyObject
                      "math" Demo.client false Demo.start) = inr dsts
    /\ forall dst, In dst dsts ->
         dst_responseFormat dst = "content_and_artifact"
         /\ dst_func dst
            = _callTool Demo.stringify "math" (dst_name dst) Demo.client.
Proof.
  eexists. split; [reflexivity |]. intros dst I.
  destruct (loaded_tools_are_bound Demo.stringify Demo.convert
              Demo.emptyObject "math" Demo.client false Demo.start
              (mkListToolsResult (Some [Demo.add; Demo.broken; Demo.echo]))
              _ eq_refl eq_refl dst I)
    as (tool & _ & _ & _ & _ & F & B).
  split; assumption.
Defined.

Lemma policies_agree_without_failure_witness :
  loadMcpTools Demo.stringify Demo.convert Demo.emptyObject
    "fs" Cases.mirror_server true Demo.start
  = loadMcpTools Demo.stringify Demo.convert Demo.emptyObject
      "fs" Cases.mirror_server false Demo.start
  /\ exists dsts,
      fst (loadMcpTools Demo.stringify Demo.convert Demo.emptyObject
             "fs" Cases.mirror_server true Demo.start) = inr dsts
      /\ length dsts = 2.
Proof.
  exact (policies_agree_without_failure Demo.stringify Demo.convert
           Demo.emptyObject "fs" Cases.mirror_server Demo.start
           (mkListToolsResult (Some [Demo.add; Demo.echo])) eq_refl eq_refl).
Defined.

Lemma lenient_load_returns_witness :
  exists dsts,
    fst (loadMcpTools Demo.stringify Demo.convert Demo.emptyObject
                      "math" Demo.client false Demo.start) = inr dsts
    /\ length dsts <= 3.
Proof.
  exact (lenient_load_returns Demo.stringify Demo.convert Demo.emptyObject
           "math" Demo.client Demo.start
           (mkListToolsResult (Some [Demo.add; Demo.broken; Demo.echo]))
           eq_refl).
Defined.

Lemma loaded_names_in_catalog_order_witness :
  exists dsts,
    fst (loadMcpTools Demo.stringify Demo.convert Demo.emptyObject
                      "math" Demo.client false Demo.start) = inr dsts
    /\ map (@dst_name _ _) dsts = ["add"; "echo"].
Proof.
  eexists. split; [reflexivity |].
  exact (loaded_names_in_catalog_order Demo.stringify Demo.convert
           Demo.emptyObject "math" Demo.client Demo.start
           (mkListToolsResult (Some [Demo.add; Demo.broken; Demo.echo]))
           _ eq_refl eq_refl).
Defined.

Lemma strict_load_stops_at_first_failure_witness :
  loadMcpTools Demo.stringify Demo.convert Demo.emptyObject
    "math" Demo.client true Demo.start
  = (inl (Foreign "Error: Unsupported schema type"),
     mkWorld [ListTools]
       [Debug "INFO: Found 3 MCP tools";
        Debug "INFO: Successfully loaded tool: add";
        DebugWith ("ERROR: Failed to load tool " ++ Js.QUOTE ++ "broken"
                   ++ Js.QUOTE ++ ":")
                  (Foreign "Error: Unsupported schema type")]).
Proof.
  exact (strict_load_stops_at_first_failure Demo.stringify Demo.convert
           Demo.emptyObject "math" Demo.client Demo.start
           (mkListToolsResult (Some [Demo.add; Demo.broken; Demo.echo]))
           [Demo.add] [Demo.echo] Demo.broken
           (Foreign "Error: Unsupported schema type")
           eq_refl eq_refl eq_refl eq_refl).
Defined.

(* ===================================================================== *)
(** ** Failing reads, the primary content, and the trace of a lenient load *)
(* ===================================================================== *)

Section ConverterDependencies.

Context {Args JSONSchema : Type}.
Implicit Types (client : Client Args JSONSchema) (w : World Args).
Implicit Types (serverName toolName : string).
Implicit Types (blocks : list ContentBlock) (r : EmbeddedResource).

Lemma Promise_all_all_fail (rs : list EmbeddedResource) client w :
  (forall h u, exists err, readResource client h u = inl err) ->
  (exists r, In r rs /\ needs_read r = true) ->
  exists err,
    fst (Promise_all (map (fun r => _embeddedResourceToArtifact r client) rs) w)
    = inl err.
Proof.
  intros Fail. revert w.
  induction rs as [| r rest IH]; intros w (r0 & I & N); [destruct I |].
  simpl. unfold _embeddedResourceToArtifact at 1. fold (needs_read r).
  destruct (needs_read r) eqn:Nr.
  - unfold bind, send, ret.
    destruct (Fail (requests w) (rc_uri (resource r))) as [err R].
    rewrite R.
    destruct (Promise_all _ _) as [os w2]. simpl. eauto.
  - unfold ret at 1.
    assert (Rest : exists r1, In r1 rest /\ needs_read r1 = true).
    { destruct I as [<- | I]; [congruence | eauto]. }
    destruct (IH w Rest) as [err E].
    destruct (Promise_all _ _) as [os w2]. simpl in E |- *. subst os. eauto.
Qed.

Lemma filter_twice {A : Type} (f : A -> bool) (xs : list A) :
  filter f (filter f xs) = filter f xs.
Proof.
  induction xs as [| x rest IH]; simpl; [reflexivity |].
  destruct (f x) eqn:F; simpl; [rewrite F, IH |]; auto.
Qed.

Lemma no_resource_among_text_and_images blocks :
  resource_blocks (filter is_text_or_image blocks) = [].
Proof.
  induction blocks as [| b rest IH]; simpl; [reflexivity |].
  destruct (is_text_or_image b) eqn:T; [| exact IH].
  destruct b as [t | d m | r | k t U]; simpl; try exact IH.
  - discriminate T.
  - destruct (undeclared_filtered_out (UndeclaredContent k t U) U) as [F _].
    congruence.
Qed.

(** X17.  No partial result.  When the result has a resource block that has
    to be read and the server fails every read, the conversion fails with
    the failure of a read: the text and image content is not returned
    either. *)
Theorem failed_reads_fail_the_conversion
        serverName toolName blocks (e : option bool) client w :
  Js.truthy_bool e = false ->
  (forall h u, exists err, readResource client h u = inl err) ->
  (exists r, In r (resource_blocks blocks) /\ needs_read r = true) ->
  exists err,
    fst (_convertCallToolResult serverName toolName
           (ResultObject (mkCallToolResult (ContentArray blocks) e)) client w)
    = inl err
    /\ read_failure client err.
Proof.
  intros He Fail Needy.
  destruct (fragments_total serverName toolName blocks) as [fs Hfs].
  rewrite (convert_unfold serverName toolName blocks e client w fs He Hfs).
  destruct (Promise_all_all_fail (resource_blocks blocks) client w Fail Needy)
    as [err E].
  pose proof (artifacts_failure blocks client w) as AF.
  unfold artifacts_of, bind in *.
  destruct (Promise_all _ w) as [[err' | parts] w']; simpl in E;
    [| discriminate].
  injection E as ->. exists err. split; [reflexivity |].
  apply AF. reflexivity.
Qed.

(** X18.  The primary content is decided by the text and image blocks
    alone.  Whenever a conversion returns, converting just the text and image
    blocks of the same result, against any client and in any world, returns
    the same primary content, with no artifact and without a request. *)
Theorem primary_content_ignores_the_rest
        serverName toolName blocks (e : option bool) client w
        (primary : MessageContent) (artifacts : list EmbeddedResource) :
  Js.truthy_bool e = false ->
  fst (_convertCallToolResult serverName toolName
         (ResultObject (mkCallToolResult (ContentArray blocks) e)) client w)
  = inr (primary, artifacts) ->
  forall (client' : Client Args JSONSchema) (w' : World Args),
    _convertCallToolResult serverName toolName
      (ResultObject
         (mkCallToolResult (ContentArray (filter is_text_or_image blocks)) e))
      client' w'
    = (inr (primary, []), w').
Proof.
  intros He R client' w'.
  destruct (fragments_total serverName toolName blocks) as [fs Hfs].
  rewrite (convert_unfold serverName toolName blocks e client w fs He Hfs)
    in R.
  assert (Hfs' : mcpTextAndImageContent serverName toolName
                   (filter is_text_or_image blocks) = inr fs).
  { unfold mcpTextAndImageContent in *. rewrite filter_twice. exact Hfs. }
  rewrite (convert_unfold serverName toolName _ e client' w' fs He Hfs').
  unfold artifacts_of, bind, ret.
  rewrite no_resource_among_text_and_images. simpl.
  destruct (artifacts_of blocks client w) as [[err | a] w1]; simpl in R;
    [discriminate |].
  injection R as <- _. reflexivity.
Qed.

End ConverterDependencies.

Section LoaderTrace.

Context {Args JSONSchema ZodSchema : Type}.
Variable JSON_stringify : Args -> Thrown + string.
Variable JSONSchemaToZod_convert : JSONSchema -> Thrown + ZodSchema.
Variable emptyObjectSchema : JSONSchema.
Implicit Types (client : Client Args JSONSchema) (w : World Args).
Implicit Types (serverName : string).
Implicit Types (ts : list (MCPTool JSONSchema)) (tool : MCPTool JSONSchema).

Local Abbreviation load :=
  (loadMcpTools JSON_stringify JSONSchemaToZod_convert emptyObjectSchema).
Local Abbreviation load_tool :=
  (load_one JSON_stringify JSONSchemaToZod_convert emptyObjectSchema).
Local Abbreviation build :=
  (construct_tool JSON_stringify JSONSchemaToZod_convert emptyObjectSchema).

(** The record a lenient load leaves for one descriptor. *)
Local Abbreviation record_of serverName client :=
  (fun tool : MCPTool JSONSchema =>
     match build serverName client tool with
     | inr dst => loaded_record dst
     | inl e => failed_to_load_record tool e
     end).

Lemma lenient_map_world serverName client ts w :
  snd (mapM (load_tool serverName client false) ts w)
  = mkWorld (requests w)
            (debugLog w ++ map (record_of serverName client) ts).
Proof.
  revert w. induction ts as [| tool rest IH]; intros w.
  - simpl. rewrite app_nil_r. symmetry. apply world_eta.
  - rewrite mapM_cons.
    rewrite (load_tool_step JSON_stringify JSONSchemaToZod_convert
               emptyObjectSchema serverName client false tool w).
    cbn [map]. cbv beta.
    destruct (build serverName client tool) as [e | dst];
      match goal with
      | |- context [mapM _ rest ?w1] => specialize (IH w1)
      end;
      destruct (mapM _ rest _) as [[e' | l] w']; simpl in IH |- *;
      subst w'; cbn [requests debugLog]; rewrite <- app_assoc; reflexivity.
Qed.

(** X19.  The trace of a lenient load.  After the tools are listed, a
    lenient load has sent that one request and written the count of the
    advertised tools, unnamed ones included, followed by exactly one record
    for each named descriptor in catalog order: the success record of the tool
    when it constructs, the error record with what was thrown when it does
    not.  Unnamed descriptors leave no record. *)
Theorem lenient_load_trace
        serverName client w (response : ListToolsResult JSONSchema) :
  listTools client (requests w) = inr response ->
  snd (load serverName client false w)
  = mkWorld (requests w ++ [ListTools])
            (debugLog w
             ++ found_record (length (Js.nullish (tools response) []))
             :: map (record_of serverName client)
                    (named (Js.nullish (tools response) []))).
Proof.
  intros L.
  rewrite (load_unfold JSON_stringify JSONSchemaToZod_convert
             emptyObjectSchema serverName client false w response L).
  match goal with
  | |- context [mapM ?f ?l ?w1] =>
      pose proof (lenient_map_world serverName client l w1) as W;
      destruct (mapM f l w1) as [[e | loaded] w']
  end; simpl in W |- *; subst w'; cbn [requests debugLog];
    rewrite <- app_assoc; destruct (tools response); reflexivity.
Qed.

End LoaderTrace.

Lemma failed_reads_fail_the_conversion_witness :
  (forall h u, exists err, readResource Demo.offline h u = inl err)
  /\ exists err,
      fst (_convertCallToolResult "fs" "read"
             (Demo.succeeded [TextContent "done";
                              ResourceBlock Demo.reference])
             Demo.offline Demo.start) = inl err
      /\ read_failure Demo.offline err.
Proof.
  assert (F : forall (h : list (ClientRequest Demo.Args)) (u : string),
             exists err, readResource Demo.offline h u = inl err)
    by (intros h u; eexists; reflexivity).
  split; [exact F |].
  apply (failed_reads_fail_the_conversion "fs" "read"
           [TextContent "done"; ResourceBlock Demo.reference] (Some false)
           Demo.offline Demo.start eq_refl F).
  exists Demo.reference. split; [left; reflexivity | reflexivity].
Defined.

Lemma primary_content_ignores_the_rest_witness :
  fst (_convertCallToolResult "fs" "read"
         (Demo.succeeded [ResourceBlock Demo.reference; TextContent "done"])
         Demo.client Demo.start)
  = inr (ContentString "done",
         [mkEmbeddedResource None None None Demo.part1;
          mkEmbeddedResource None None None Demo.part2])
  /\ _convertCallToolResult "fs" "read"
       (Demo.succeeded [TextContent "done"]) Demo.offline Demo.start
     = (inr (ContentString "done", []), Demo.start).
Proof.
  split; [reflexivity |].
  exact (primary_content_ignores_the_rest "fs" "read"
           [ResourceBlock Demo.reference; TextContent "done"] (Some false)
           Demo.client Demo.start (ContentString "done")
           [mkEmbeddedResource None None None Demo.part1;
            mkEmbeddedResource None None None Demo.part2]
           eq_refl eq_refl Demo.offline Demo.start).
Defined.

Lemma lenient_load_trace_witness :
  snd (loadMcpTools Demo.stringify Demo.convert Demo.emptyObject "math"
         (Demo.server [Demo.add; Demo.anonymous; Demo.broken] (inr Demo.five))
         false Demo.start)
  = mkWorld [ListTools]
      [Debug "INFO: Found 3 MCP tools";
       Debug "INFO: Successfully loaded tool: add";
       DebugWith ("ERROR: Failed to load tool " ++ Js.QUOTE ++ "broken"
                  ++ Js.QUOTE ++ ":")
                 (Foreign "Error: Unsupported schema type")].
Proof.
  exact (lenient_load_trace Demo.stringify Demo.convert Demo.emptyObject
           "math"
           (Demo.server [Demo.add; Demo.anonymous; Demo.broken]
                        (inr Demo.five))
           Demo.start
           (mkListToolsResult (Some [Demo.add; Demo.anonymous; Demo.broken]))
           eq_refl).
Defined.
